(** * A style checker for Python source: Tasks/04/solution.py

    Shallow embedding of [CodeErrors], [CodeAnalyzer] and [critic], and the
    properties of the checks that the analyzer runs.

    Python values are modelled as follows.
    - [int] is [Z]; [str] is a list of code points ([pystr]); the messages
      built by [str.format] are ASCII and kept as [string].
    - An exception is the [Raise] branch of the result type [Res].
    - [self.issues], a [defaultdict(set)], is a finite map from line numbers
      to finite sets of messages.  A message is what a [CodeErrors] method
      returns, that is a string or [None], hence [option string].
    - The tree built by [ast.parse] is a generic tree of nodes carrying what
      the analyzer reads: [_fields], [lineno], [col_offset].
    - [ast.parse] and the iteration order of a Python [set] are not part of
      the program; they are the two fields of the class [Runtime]. *)

From stdpp Require Import gmap strings list fin_maps pretty.

Set Warnings "-register-all".
#[local] Open Scope Z_scope.

(** ** Exceptions and results *)

Inductive exn : Set :=
| SyntaxError
| ValueError
| IndexError
| TypeError
| AttributeError.

Inductive Res (A : Type) : Type :=
| Ok (a : A)
| Raise (e : exn).
Arguments Ok {A} a.
Arguments Raise {A} e.

#[global] Instance Res_ret : MRet Res := λ A a, Ok a.
#[global] Instance Res_bind : MBind Res := λ A B k r,
  match r with
  | Ok a => k a
  | Raise e => Raise e
  end.

(** A [for] loop whose body may raise: the first exception ends the loop. *)
Fixpoint for_each {A B} (body : A → B → Res A) (a : A) (l : list B) : Res A :=
  match l with
  | [] => Ok a
  | x :: l' => a' ← body a x; for_each body a' l'
  end.

(** ** Strings *)

(** A Python [str]: a sequence of Unicode code points. *)
Abbreviation pystr := (list N).

Definition pystr_of (s : string) : pystr :=
  (λ a, Ascii.N_of_ascii a) <$> String.list_ascii_of_string s.

(** The line boundaries of [str.splitlines]: LF, VT, FF, CR, FS, GS, RS,
    NEL, LS and PS. *)
Definition is_linebreak (c : N) : bool :=
  bool_decide (c ∈ [10; 11; 12; 13; 28; 29; 30; 133; 8232; 8233]%N).

(** [str.splitlines()]: the line breaks are dropped, CR LF is one break, and
    there is no empty last line after a final break.  [cur] holds the
    current line, reversed. *)
Fixpoint splitlines_from (cur : pystr) (s : pystr) : list pystr :=
  match s with
  | [] => match cur with [] => [] | _ => [rev cur] end
  | c :: s' =>
      if is_linebreak c then
        rev cur ::
          match c, s' with
          | 13%N, 10%N :: s'' => splitlines_from [] s''
          | _, _ => splitlines_from [] s'
          end
      else splitlines_from (c :: cur) s'
  end.

Definition splitlines (s : pystr) : list pystr := splitlines_from [] s.

(** [len(line)]. *)
Definition len {A} (l : list A) : Z := Z.of_nat (length l).

(** [enumerate(l)], counting from [start]. *)
Fixpoint enumerate_from {A} (start : Z) (l : list A) : list (Z * A) :=
  match l with
  | [] => []
  | x :: l' => (start, x) :: enumerate_from (start + 1) l'
  end.

Definition enumerate {A} (l : list A) : list (Z * A) := enumerate_from 0 l.

(** [re.search('(;)', line)] as a truth value: a match exists exactly when
    the line holds the code point of the semicolon. *)
Definition re_search_semicolon (line : pystr) : bool :=
  existsb (N.eqb 59) line.

(** [l[i]] on a Python list: a negative index counts from the end. *)
Definition py_index {A} (l : list A) (i : Z) : Res A :=
  let j := if i <? 0 then i + len l else i in
  if j <? 0 then Raise IndexError
  else match l !! Z.to_nat j with
       | Some x => Ok x
       | None => Raise IndexError
       end.

(** ** Syntax trees *)

(** The value of a field of a node: one child node, a list of child nodes,
    or something that is not a node (an identifier, a constant, [None]). *)
Inductive field_value (A : Type) : Type :=
| F_node (n : A)
| F_list (ns : list A)
| F_other.
Arguments F_node {A} n.
Arguments F_list {A} ns.
Arguments F_other {A}.

(** A node: its class name, [lineno] and [col_offset] where the class has
    them, and its fields in the order of [_fields]. *)
Inductive node : Type :=
| Node (kind : string) (lineno col_offset : option Z)
       (fields : list (string * field_value node)).

Definition node_kind (n : node) : string :=
  match n with Node k _ _ _ => k end.
Definition node_fields (n : node) : list (string * field_value node) :=
  match n with Node _ _ _ fs => fs end.

(** [node.lineno] and [node.col_offset]. *)
Definition lineno (n : node) : Res Z :=
  match n with
  | Node _ (Some l) _ _ => Ok l
  | Node _ None _ _ => Raise AttributeError
  end.
Definition col_offset (n : node) : Res Z :=
  match n with
  | Node _ _ (Some c) _ => Ok c
  | Node _ _ None _ => Raise AttributeError
  end.

(** ['body' in node._fields]. *)
Definition has_body (n : node) : bool :=
  existsb (λ f, String.eqb f.1 "body") (node_fields n).

Fixpoint get_field (name : string) (fs : list (string * field_value node))
  : Res (field_value node) :=
  match fs with
  | [] => Raise AttributeError
  | (f, v) :: fs' => if String.eqb f name then Ok v else get_field name fs'
  end.

(** [node.body]. *)
Definition body (n : node) : Res (field_value node) :=
  get_field "body" (node_fields n).

(** [v[0]] on the value of a field: only a list can be subscripted. *)
Definition subscript0 (v : field_value node) : Res node :=
  match v with
  | F_list ns => py_index ns 0
  | F_node _ | F_other => Raise TypeError
  end.

Definition field_children (v : field_value node) : list node :=
  match v with
  | F_node n => [n]
  | F_list ns => ns
  | F_other => []
  end.

(** [ast.iter_child_nodes(node)]: the nodes held by the fields, in order. *)
Definition iter_child_nodes (n : node) : list node :=
  flat_map (λ f, field_children f.2) (node_fields n).

(** The number of nodes of a tree. *)
Fixpoint size (n : node) : nat :=
  match n with
  | Node _ _ _ fs =>
      S (sum_list_with
           (λ f, match f.2 with
                 | F_node c => size c
                 | F_list cs => sum_list_with size cs
                 | F_other => 0%nat
                 end) fs)
  end.

(** The nodes of a tree, each before its children (pre-order). *)
Fixpoint subtree (n : node) : list node :=
  match n with
  | Node _ _ _ fs =>
      n :: flat_map
             (λ f, match f.2 with
                   | F_node c => subtree c
                   | F_list cs => flat_map subtree cs
                   | F_other => []
                   end) fs
  end.

(** [ast.walk]: a queue of nodes still to visit; the node at the front is
    taken, its children join the back, and the node is yielded.  One unit
    of [fuel] is one turn of the [while todo] loop. *)
Fixpoint walk_todo (fuel : nat) (todo : list node) : list node :=
  match fuel, todo with
  | S fuel', n :: rest => n :: walk_todo fuel' (rest ++ iter_child_nodes n)
  | _, _ => []
  end.

Definition walk (n : node) : list node := walk_todo (size n) [n].

(** ** The issues *)

Abbreviation sink := (gmap Z (gset (option string))).

(** [issues[lineno].add(msg)] on a [defaultdict(set)]. *)
Definition add_issue (lineno : Z) (msg : option string) (s : sink) : sink :=
  <[lineno := {[msg]} ∪ default ∅ (s !! lineno)]> s.

(** ** class CodeErrors *)

Module CodeErrors.

Definition line_too_long (actual allowed : Z) : option string :=
  if actual >? allowed
  then Some ("line too long (" +:+ pretty actual +:+ " > "
               +:+ pretty allowed +:+ ")")
  else None.

Definition multiple_expressions : option string :=
  Some "multiple expressions on the same line".

Definition nesting_too_deep (actual allowed : Z) : option string :=
  if actual >? allowed
  then Some ("nesting too deep (" +:+ pretty actual +:+ " > "
               +:+ pretty allowed +:+ ")")
  else None.

Definition indentation (actual allowed : Z) : option string :=
  if actual >? allowed
  then Some ("indentation is " +:+ pretty actual +:+ " instead of "
               +:+ pretty allowed)
  else None.

Definition too_many_methods_in_class (actual allowed : Z) : option string :=
  None.
Definition too_many_arguments (actual allowed : Z) : option string := None.
Definition trailing_whitespace : option string := None.
Definition too_many_lines (actual allowed : Z) : option string := None.

End CodeErrors.

(** ** What the program takes from the Python runtime *)

(** The value of a rule: [None], a flag or a threshold. *)
Inductive pyval : Set :=
| PyNone
| PyBool (b : bool)
| PyInt (n : Z).

(** [ast.parse] returns a tree or raises; iterating over a [set] yields
    each of its elements once, in an order the language does not fix. *)
Class Runtime : Type := {
  ast_parse : pystr → Res node;
  set_iter : gset string → list string;
  set_iter_perm : ∀ X : gset string, set_iter X ≡ₚ elements X
}.

(** ** class CodeAnalyzer *)

Module CodeAnalyzer.

(** The class attribute [RULES]; [RULES.line_length] stands for
    [RULES['line_length']], and a threshold of [None] is [None]. *)
Module RULES.
Definition line_length : Z := 79.
Definition forbid_semicolons : bool := true.
Definition max_nesting : option Z := None.
Definition indentation_size : Z := 4.
Definition methods_per_class : option Z := None.
Definition max_arity : option Z := None.
Definition forbid_trailing_whitespace : bool := true.
Definition max_lines_per_function : option Z := None.
(** The keys of the dictionary. *)
Definition keys : list string :=
  [ "line_length"; "forbid_semicolons"; "max_nesting"; "indentation_size";
    "methods_per_class"; "max_arity"; "forbid_trailing_whitespace";
    "max_lines_per_function" ].
End RULES.

(** The attributes of an instance.  [code_errors] holds no state and is
    left out: its methods are those of [CodeErrors]. *)
Record t : Type := mk {
  parsed_code : node;
  code : pystr;
  rules : option (gmap string pyval);
  issues : sink
}.

(** [self.issues[lineno].add(msg)]. *)
Definition add (self : t) (lineno : Z) (msg : option string) : t :=
  mk (parsed_code self) (code self) (rules self)
     (add_issue lineno msg (issues self)).

Definition __init__ `{Runtime} (code : pystr)
    (rules : option (gmap string pyval)) : Res t :=
  parsed_code ← ast_parse code;
  Ok (mk parsed_code code rules ∅).

(** The truth value of [self.rules]: [None] and the empty mapping are
    false. *)
Definition truthy (rules : option (gmap string pyval)) : bool :=
  match rules with
  | None => false
  | Some m => negb (bool_decide (m = ∅))
  end.

Definition line_length (self : t) : Res t :=
  let default_length := RULES.line_length in
  for_each
    (λ self '(lineno, line),
       let length := len line in
       if length >? default_length
       then Ok (add self (lineno + 1)
                  (CodeErrors.line_too_long length default_length))
       else Ok self)
    self (enumerate (splitlines (code self))).

Definition forbid_semicolons (self : t) : Res t :=
  for_each
    (λ self '(lineno, line),
       if re_search_semicolon line
       then Ok (add self (lineno + 1) CodeErrors.multiple_expressions)
       else Ok self)
    self (enumerate (splitlines (code self))).

Definition max_nesting (self : t) : Res t :=
  let max_nesting_level := 3 in
  top ← body (parsed_code self);
  first ← subscript0 top;
  let nodes := List.filter has_body (walk first) in
  let nesting_level := len nodes in
  if nesting_level >? max_nesting_level then
    last ← py_index nodes (len nodes - 1);
    l ← lineno last;
    let lineno := l + 1 in
    Ok (add self lineno
          (CodeErrors.nesting_too_deep nesting_level max_nesting_level))
  else Ok self.

(** One turn of the loop of [indentation_size]; the state of the loop is
    [last_offset] and the analyzer. *)
Definition indentation_size_body (indent : Z) (st : Z * t) (n : node)
  : Res (Z * t) :=
  let '(last_offset, self) := st in
  if has_body n then
    b ← body n;
    first ← subscript0 b;
    lineno ← lineno first;
    b ← body n;
    first ← subscript0 b;
    col_offset ← col_offset first;
    let self :=
      if col_offset >? last_offset + indent then
        let offset := col_offset - last_offset in
        add self lineno (CodeErrors.indentation offset indent)
      else self in
    Ok (col_offset, self)
  else Ok (last_offset, self).

Definition indentation_size (self : t) : Res t :=
  let last_offset := 0 in
  let indent := RULES.indentation_size in
  st ← for_each (indentation_size_body indent) (last_offset, self)
        (walk (parsed_code self));
  Ok st.2.

Definition methods_per_class (self : t) : Res t := Ok self.
Definition max_arity (self : t) : Res t := Ok self.
Definition forbid_trailing_whitespace (self : t) : Res t := Ok self.
Definition max_lines_per_function (self : t) : Res t := Ok self.

(** The attributes of the class as [dir] and [getattr] see them.  The
    attributes inherited from [object] all have names that start with two
    underscores; three of them stand for the rest. *)
Inductive attribute : Type :=
| Data
| Callable
| Method (f : t → Res t).

Definition class_dict : list (string * attribute) :=
  [ ("RULES", Data);
    ("__doc__", Data);
    ("__init__", Callable);
    ("__repr__", Callable);
    ("analyze", Callable);
    ("forbid_semicolons", Method forbid_semicolons);
    ("forbid_trailing_whitespace", Method forbid_trailing_whitespace);
    ("get_instance_methods", Callable);
    ("indentation_size", Method indentation_size);
    ("line_length", Method line_length);
    ("max_arity", Method max_arity);
    ("max_lines_per_function", Method max_lines_per_function);
    ("max_nesting", Method max_nesting);
    ("methods_per_class", Method methods_per_class) ].

Definition callable (a : attribute) : bool :=
  match a with
  | Data => false
  | Callable | Method _ => true
  end.

Definition get_instance_methods : gset string :=
  list_to_set
    (fst <$> List.filter
               (λ m, callable m.2 && negb (String.prefix "__" m.1))
               class_dict).

Fixpoint getattr (name : string) (d : list (string * attribute))
  : option attribute :=
  match d with
  | [] => None
  | (n, a) :: d' => if String.eqb n name then Some a else getattr name d'
  end.

(** [getattr(type(self), method)(self)].  [analyze] discards the two
    callables that are not checks before it calls anything, so the model
    gives them no body. *)
Definition call (method : string) (self : t) : Res t :=
  match getattr method class_dict with
  | Some (Method f) => f self
  | Some Callable | Some Data => Raise TypeError
  | None => Raise AttributeError
  end.

(** The methods that [analyze] calls, in the order of the calls. *)
Definition methods_called `{Runtime} (self : t) : list string :=
  if negb (truthy (rules self)) then
    let methods := get_instance_methods in
    let methods := methods ∖ {["analyze"]} in
    let methods := methods ∖ {["get_instance_methods"]} in
    set_iter methods
  else [].

Definition analyze `{Runtime} (self : t) : Res sink :=
  self ← for_each (λ self method, call method self) self
          (methods_called self);
  Ok (issues self).

End CodeAnalyzer.

(** The call [critic(code, **rules)] and the body of [critic].  The
    overrides are keyword arguments: one named [code] clashes with the
    parameter [code], and the call raises [TypeError] before the body
    runs.  The body does not read [rules]. *)
Definition critic `{Runtime} (code : pystr) (rules : gmap string pyval)
  : Res sink :=
  match rules !! "code" with
  | Some _ => Raise TypeError
  | None =>
      self ← CodeAnalyzer.__init__ code None;
      CodeAnalyzer.analyze self
  end.

(** ** Trees of some sources *)

(** The node classes of the [ast] module that the examples use, with the
    fields of their [_fields] in order. *)
Module Ast.

Definition Module_ (stmts : list node) : node :=
  Node "Module" None None [("body", F_list stmts)].

Definition Load : node := Node "Load" None None [].
Definition Store : node := Node "Store" None None [].

Definition Name (l c : Z) (ctx : node) : node :=
  Node "Name" (Some l) (Some c) [("id", F_other); ("ctx", F_node ctx)].

Definition Num (l c : Z) : node :=
  Node "Num" (Some l) (Some c) [("n", F_other)].

Definition Pass (l c : Z) : node := Node "Pass" (Some l) (Some c) [].

Definition Assign (l c : Z) (targets : list node) (value : node) : node :=
  Node "Assign" (Some l) (Some c)
    [("targets", F_list targets); ("value", F_node value)].

Definition arguments : node :=
  Node "arguments" None None
    [("args", F_list []); ("vararg", F_other); ("kwonlyargs", F_list []);
     ("kw_defaults", F_list []); ("kwarg", F_other); ("defaults", F_list [])].

Definition FunctionDef (l c : Z) (stmts : list node) : node :=
  Node "FunctionDef" (Some l) (Some c)
    [("name", F_other); ("args", F_node arguments); ("body", F_list stmts);
     ("decorator_list", F_list []); ("returns", F_other)].

Definition If (l c : Z) (test : node) (stmts orelse : list node) : node :=
  Node "If" (Some l) (Some c)
    [("test", F_node test); ("body", F_list stmts);
     ("orelse", F_list orelse)].

Definition While (l c : Z) (test : node) (stmts orelse : list node) : node :=
  Node "While" (Some l) (Some c)
    [("test", F_node test); ("body", F_list stmts);
     ("orelse", F_list orelse)].

Definition For (l c : Z) (target iter : node) (stmts orelse : list node)
  : node :=
  Node "For" (Some l) (Some c)
    [("target", F_node target); ("iter", F_node iter);
     ("body", F_list stmts); ("orelse", F_list orelse)].

Definition Lambda (l c : Z) (value : node) : node :=
  Node "Lambda" (Some l) (Some c)
    [("args", F_node arguments); ("body", F_node value)].

End Ast.

Module Examples.
Import Ast.

(** The empty source. *)
Definition empty_src : pystr := [].
Definition empty_tree : node := Module_ [].

(** One statement. *)
Definition pass_src : pystr := pystr_of "pass".
Definition pass_tree : node := Module_ [Pass 1 0].

Definition nl : string := String (Ascii.ascii_of_nat 10) EmptyString.

(** Four blocks, each inside the one before. *)
Definition nested_src : pystr :=
  pystr_of ("def f():" +:+ nl +:+
            "    if a:" +:+ nl +:+
            "        for x in y:" +:+ nl +:+
            "            while z:" +:+ nl +:+
            "                pass" +:+ nl).
Definition nested_while : node :=
  While 4 12 (Name 4 18 Load) [Pass 5 16] [].
Definition nested_def : node :=
  FunctionDef 1 0
    [If 2 4 (Name 2 7 Load)
       [For 3 8 (Name 3 12 Store) (Name 3 17 Load) [nested_while] []]
       []].
Definition nested_tree : node := Module_ [nested_def].

(** A body indented by five columns. *)
Definition indent5_src : pystr :=
  pystr_of ("def f():" +:+ nl +:+ "     pass" +:+ nl).
Definition indent5_tree : node := Module_ [FunctionDef 1 0 [Pass 2 5]].

(** Two statements on one line. *)
Definition semicolon_src : pystr := pystr_of "x = 1; y = 2".
Definition semicolon_tree : node :=
  Module_ [Assign 1 0 [Name 1 0 Store] (Num 1 4);
           Assign 1 7 [Name 1 7 Store] (Num 1 11)].

(** An assignment of a lambda: the [body] of a [Lambda] is an expression,
    not a list of statements. *)
Definition lambda_src : pystr := pystr_of "x = lambda: 0".
Definition lambda_tree : node :=
  Module_ [Assign 1 0 [Name 1 0 Store] (Lambda 1 4 (Num 1 12))].

(** A parser that knows the sources above and rejects every other text. *)
Definition parse (code : pystr) : Res node :=
  if decide (code = empty_src) then Ok empty_tree
  else if decide (code = pass_src) then Ok pass_tree
  else if decide (code = nested_src) then Ok nested_tree
  else if decide (code = indent5_src) then Ok indent5_tree
  else if decide (code = semicolon_src) then Ok semicolon_tree
  else if decide (code = lambda_src) then Ok lambda_tree
  else Raise SyntaxError.

(** A runtime in which a set is iterated in the order of [elements]. *)
#[local] Instance runtime : Runtime :=
  {| ast_parse := parse;
     set_iter := elements;
     set_iter_perm := λ X, reflexivity (elements X) |}.

End Examples.

(** ** The vocabulary of the statements *)

(** The number of nodes of the trees of a queue. *)
Definition total_size (todo : list node) : nat := sum_list_with size todo.

(** The analyzer [self] with its issues replaced. *)
Definition with_issues (self : CodeAnalyzer.t) (s : sink) : CodeAnalyzer.t :=
  CodeAnalyzer.mk (CodeAnalyzer.parsed_code self) (CodeAnalyzer.code self)
    (CodeAnalyzer.rules self) s.

(** The issues after a loop over the numbered lines that adds [g line] at
    the number of each line where [g] gives a message. *)
Definition per_line (g : pystr → option (option string)) (s : sink)
    (numbered : list (Z * pystr)) : sink :=
  foldl (λ s p, match g p.2 with
                | Some m => add_issue (p.1 + 1) m s
                | None => s
                end) s numbered.

(** What the line-length check adds for a line, if anything. *)
Definition too_long (line : pystr) : option (option string) :=
  if len line >? CodeAnalyzer.RULES.line_length
  then Some (CodeErrors.line_too_long (len line)
               CodeAnalyzer.RULES.line_length)
  else None.

(** What the semicolon check adds for a line, if anything. *)
Definition has_semicolon (line : pystr) : option (option string) :=
  if re_search_semicolon line
  then Some CodeErrors.multiple_expressions
  else None.

(** The line and the column of the first statement of the body of [n]. *)
Definition first_statement (n : node) (lc : Z * Z) : Prop :=
  ∃ first rest,
    body n = Ok (F_list (first :: rest))
    ∧ lineno first = Ok lc.1 ∧ col_offset first = Ok lc.2.

(** The issue of one body: its first statement is at line [lc.1] and column
    [lc.2], and [prev] is the column it is compared with. *)
Definition indentation_issue (indent prev : Z) (lc : Z * Z) (s : sink)
  : sink :=
  let d := lc.2 - prev in
  if d >? indent
  then add_issue lc.1
         (Some ("indentation is " +:+ pretty d +:+ " instead of "
                  +:+ pretty indent)) s
  else s.

(** The column that the [i]-th body is compared with: 0 for the first
    body, and the column of the body before it for the others. *)
Definition prev_offset (firsts : list (Z * Z)) (i : nat) : Z :=
  match i with
  | O => 0
  | S j => default 0 (snd <$> firsts !! j)
  end.

(** The issues after the first [j] bodies of [firsts]. *)
Definition indentation_issues (indent : Z) (firsts : list (Z * Z))
    (j : nat) (s : sink) : sink :=
  foldl (λ s i, match firsts !! i with
                | Some lc => indentation_issue indent (prev_offset firsts i) lc s
                | None => s
                end) s (seq 0 j).

(** The same issues, computed with a running column as the loop does. *)
Fixpoint indentation_run (indent prev : Z) (firsts : list (Z * Z))
    (s : sink) : sink :=
  match firsts with
  | [] => s
  | lc :: rest =>
      indentation_run indent lc.2 rest (indentation_issue indent prev lc s)
  end.

(** The names of the eight checks. *)
Definition check_names : list string :=
  [ "forbid_semicolons"; "forbid_trailing_whitespace"; "indentation_size";
    "line_length"; "max_arity"; "max_lines_per_function"; "max_nesting";
    "methods_per_class" ].

(** ** The vocabulary of the further properties *)

(** The union of two maps of issues: under each line, the union of the two
    sets of messages. *)
Definition sink_union (a b : sink) : sink :=
  union_with (λ x y, Some (x ∪ y)) a b.

(** What the check named [m] finds on its own: its issues on an analyzer
    with the tree, the code and the rules of [self] and no issues yet. *)
Definition findings (m : string) (self : CodeAnalyzer.t) : Res sink :=
  r ← CodeAnalyzer.call m (with_issues self ∅);
  Ok (CodeAnalyzer.issues r).

(** The findings of the checks named in [l], put together. *)
Fixpoint all_findings (self : CodeAnalyzer.t) (l : list string) : Res sink :=
  match l with
  | [] => Ok ∅
  | m :: l' =>
      d ← findings m self;
      ds ← all_findings self l';
      Ok (sink_union ds d)
  end.

(** Every set of messages of [s] has a message, and all its messages
    satisfy [Q]. *)
Definition all_messages (Q : option string → Prop) (s : sink) : Prop :=
  ∀ (k : Z) (msgs : gset (option string)),
    s !! k = Some msgs → msgs ≠ ∅ ∧ ∀ m, m ∈ msgs → Q m.

(** The message [m] is recorded under the line [k]. *)
Definition has_message (s : sink) (k : Z) (m : option string) : Prop :=
  ∃ msgs : gset (option string), s !! k = Some msgs ∧ m ∈ msgs.

(** The four shapes of the messages of [CodeErrors]. *)
Definition is_line_too_long (m : option string) : Prop :=
  ∃ L : Z, m = Some ("line too long (" +:+ pretty L +:+ " > "
                       +:+ pretty CodeAnalyzer.RULES.line_length +:+ ")").
Definition is_multiple_expressions (m : option string) : Prop :=
  m = Some "multiple expressions on the same line".
Definition is_nesting_too_deep (m : option string) : Prop :=
  ∃ n : Z, m = Some ("nesting too deep (" +:+ pretty n +:+ " > 3)").
Definition is_indentation (m : option string) : Prop :=
  ∃ d : Z, m = Some ("indentation is " +:+ pretty d +:+ " instead of "
                       +:+ pretty CodeAnalyzer.RULES.indentation_size).
Definition is_message (m : option string) : Prop :=
  is_line_too_long m ∨ is_multiple_expressions m
  ∨ is_nesting_too_deep m ∨ is_indentation m.

(** The runtime of the examples with every set iterated backwards. *)
Definition reversed_runtime : Runtime :=
  {| ast_parse := Examples.parse;
     set_iter := λ X, reverse (elements X);
     set_iter_perm := λ X, reverse_Permutation (elements X) |}.

(** One statement and a comment after it, 85 characters in all, and a
    runtime whose parser knows this source too. *)
Definition long_src : pystr := pystr_of "pass " ++ replicate 80 35%N.
Definition long_runtime : Runtime :=
  {| ast_parse := λ code, if decide (code = long_src)
                          then Ok Examples.pass_tree
                          else Examples.parse code;
     set_iter := elements;
     set_iter_perm := λ X, reflexivity (elements X) |}.

(** A [match] statement with four cases.  A [match_case] node has a
    [body] and, unlike the statements, neither [lineno] nor
    [col_offset]. *)
Definition Constant (l c : Z) : node :=
  Node "Constant" (Some l) (Some c) [("value", F_other); ("kind", F_other)].
Definition MatchValue (l c : Z) (value : node) : node :=
  Node "MatchValue" (Some l) (Some c) [("value", F_node value)].
Definition match_case (pattern : node) (stmts : list node) : node :=
  Node "match_case" None None
    [("pattern", F_node pattern); ("guard", F_other);
     ("body", F_list stmts)].
Definition Match (l c : Z) (subject : node) (cases : list node) : node :=
  Node "Match" (Some l) (Some c)
    [("subject", F_node subject); ("cases", F_list cases)].

Definition match_src : pystr :=
  pystr_of ("match x:" +:+ Examples.nl +:+
            "    case 1: pass" +:+ Examples.nl +:+
            "    case 2: pass" +:+ Examples.nl +:+
            "    case 3: pass" +:+ Examples.nl +:+
            "    case 4: pass" +:+ Examples.nl).
Definition match_stmt : node :=
  Match 1 0 (Ast.Name 1 6 Ast.Load)
    [ match_case (MatchValue 2 9 (Constant 2 9)) [Ast.Pass 2 12];
      match_case (MatchValue 3 9 (Constant 3 9)) [Ast.Pass 3 12];
      match_case (MatchValue 4 9 (Constant 4 9)) [Ast.Pass 4 12];
      match_case (MatchValue 5 9 (Constant 5 9)) [Ast.Pass 5 12] ].
Definition match_tree : node := Ast.Module_ [match_stmt].

(** The runtime of the examples with a parser that knows the source of
    the [match] statement too, and raises [ValueError] for a source with
    a null character, which [ast.parse] rejects before it parses. *)
Definition match_runtime : Runtime :=
  {| ast_parse := λ code, if decide (0%N ∈ code) then Raise ValueError
                          else if decide (code = match_src)
                               then Ok match_tree
                               else Examples.parse code;
     set_iter := elements;
     set_iter_perm := λ X, reflexivity (elements X) |}.

(** * Properties *)

(** ** The model on small inputs *)

Example splitlines_breaks :
  splitlines [97; 13; 10; 98; 10; 10; 99; 13; 100; 10]%N
  = [[97]; [98]; []; [99]; [100]]%N.
Proof. reflexivity. Qed.

Example splitlines_empty : splitlines [] = [].
Proof. reflexivity. Qed.

Example walk_nested :
  node_kind <$> walk Examples.nested_tree
  = [ "Module"; "FunctionDef"; "arguments"; "If"; "Name"; "For"; "Load";
      "Name"; "Name"; "While"; "Store"; "Load"; "Name"; "Pass"; "Load" ].
Proof. reflexivity. Qed.

Example critic_pass :
  @critic Examples.runtime Examples.pass_src ∅ = Ok ∅.
Proof. reflexivity. Qed.

Example critic_semicolon :
  @critic Examples.runtime Examples.semicolon_src ∅
  = Ok (add_issue 1 (Some "multiple expressions on the same line") ∅).
Proof. reflexivity. Qed.

Example critic_indent5 :
  @critic Examples.runtime Examples.indent5_src ∅
  = Ok (add_issue 2 (Some "indentation is 5 instead of 4") ∅).
Proof. reflexivity. Qed.

Example critic_lambda :
  @critic Examples.runtime Examples.lambda_src ∅ = Raise TypeError.
Proof. reflexivity. Qed.

(** ** Results *)


Lemma for_each_cons {A B} (f : A → B → Res A) (a : A) (x : B) (l : list B) :
  for_each f a (x :: l) = (a' ← f a x; for_each f a' l).
Proof. done. Qed.

(** ** The walk visits every node of the tree once *)

Lemma size_children (n : node) :
  size n = S (total_size (iter_child_nodes n)).
Proof.
  destruct n as [k l c fs]. unfold total_size, iter_child_nodes. simpl.
  f_equal. induction fs as [|[f v] fs IH]; simpl; [done|].
  rewrite sum_list_with_app, <- IH. f_equal.
  destruct v; simpl; lia.
Qed.

Lemma subtree_children (n : node) :
  subtree n = n :: flat_map subtree (iter_child_nodes n).
Proof.
  destruct n as [k l c fs]. unfold iter_child_nodes. simpl. f_equal.
  induction fs as [|[f v] fs IH]; simpl; [done|].
  rewrite flat_map_app, <- IH. f_equal.
  destruct v; simpl; [by rewrite app_nil_r | done | done].
Qed.

Lemma total_size_app (l1 l2 : list node) :
  total_size (l1 ++ l2) = (total_size l1 + total_size l2)%nat.
Proof. apply sum_list_with_app. Qed.

(** With fuel for every node that is or will be in the queue, the walk
    stops on the empty queue, having yielded the nodes of every tree of the
    queue. *)
Lemma walk_todo_subtree (fuel : nat) (todo : list node) :
  (total_size todo ≤ fuel)%nat →
  walk_todo fuel todo ≡ₚ flat_map subtree todo.
Proof.
  revert todo. induction fuel as [|fuel IH]; intros todo Hfuel.
  - destruct todo as [|n rest]; [done|].
    unfold total_size in Hfuel. simpl in Hfuel.
    rewrite size_children in Hfuel. lia.
  - destruct todo as [|n rest]; [done|]. simpl.
    rewrite IH.
    + rewrite flat_map_app, (subtree_children n). simpl.
      f_equiv. apply Permutation_app_comm.
    + unfold total_size in Hfuel. simpl in Hfuel.
      rewrite size_children in Hfuel.
      rewrite total_size_app. unfold total_size in *. lia.
Qed.

(** More fuel than the nodes need changes nothing. *)
Lemma walk_todo_fuel (fuel : nat) (todo : list node) :
  (total_size todo ≤ fuel)%nat →
  walk_todo fuel todo = walk_todo (total_size todo) todo.
Proof.
  revert todo. induction fuel as [|fuel IH]; intros todo Hfuel.
  - destruct todo as [|n rest]; [done|].
    unfold total_size in Hfuel. simpl in Hfuel.
    rewrite size_children in Hfuel. lia.
  - destruct todo as [|n rest]; [done|].
    assert (Hsz : total_size (n :: rest)
                  = S (total_size (rest ++ iter_child_nodes n))).
    { rewrite total_size_app. unfold total_size. simpl.
      rewrite (size_children n). unfold total_size. lia. }
    rewrite Hsz. simpl. f_equal. apply IH. lia.
Qed.

Lemma walk_subtree (n : node) : walk n ≡ₚ subtree n.
Proof.
  unfold walk. rewrite walk_todo_subtree.
  - simpl. by rewrite app_nil_r.
  - unfold total_size. simpl. lia.
Qed.

Lemma walk_head (n : node) : ∃ rest, walk n = n :: rest.
Proof.
  unfold walk. rewrite size_children. simpl. eauto.
Qed.

(** The number of nodes with a [body] field that the walk yields is their
    number in the tree. *)
Lemma walk_count_has_body (n : node) :
  length (List.filter has_body (walk n))
  = length (List.filter has_body (subtree n)).
Proof.
  assert (Hp : ∀ l1 l2 : list node, l1 ≡ₚ l2 →
            length (List.filter has_body l1)
            = length (List.filter has_body l2)).
  { induction 1; simpl; repeat destruct (has_body _); simpl; congruence. }
  apply Hp, walk_subtree.
Qed.

(** ** The issues *)

Lemma lookup_add_issue_eq (k : Z) (m : option string) (s : sink) :
  add_issue k m s !! k = Some ({[m]} ∪ default ∅ (s !! k)).
Proof. unfold add_issue. apply lookup_insert_eq. Qed.

Lemma lookup_add_issue_ne (k k' : Z) (m : option string) (s : sink) :
  k ≠ k' → add_issue k m s !! k' = s !! k'.
Proof. intros Hne. unfold add_issue. by apply lookup_insert_ne. Qed.

Lemma with_issues_id (self : CodeAnalyzer.t) :
  with_issues self (CodeAnalyzer.issues self) = self.
Proof. by destruct self. Qed.

(** ** Checks that look at each line *)

Lemma per_line_lookup (g : pystr → option (option string))
    (lines : list pystr) (start : Z) (s : sink) (k : Z) :
  per_line g s (enumerate_from start lines) !! k =
  match (if decide (start < k) then lines !! Z.to_nat (k - 1 - start)
         else None) ≫= g with
  | Some m => Some ({[m]} ∪ default ∅ (s !! k))
  | None => s !! k
  end.
Proof.
  revert start s. induction lines as [|x xs IH]; intros start s.
  - simpl. by case_decide.
  - set (s1 := match g x with
               | Some m => add_issue (start + 1) m s
               | None => s
               end).
    change (per_line g s (enumerate_from start (x :: xs)))
      with (per_line g s1 (enumerate_from (start + 1) xs)).
    rewrite IH. clear IH.
    destruct (decide (k = start + 1)) as [->|Hk].
    + rewrite decide_False by lia. rewrite decide_True by lia.
      replace (Z.to_nat (start + 1 - 1 - start)) with 0%nat by lia.
      simpl. subst s1. destruct (g x) as [m|]; [|done].
      apply lookup_add_issue_eq.
    + assert (Hs1 : s1 !! k = s !! k).
      { subst s1. destruct (g x); [|done].
        apply lookup_add_issue_ne. lia. }
      rewrite Hs1. destruct (decide (start + 1 < k)) as [Hlt|Hge].
      * rewrite decide_True by lia.
        replace (Z.to_nat (k - 1 - start))
          with (S (Z.to_nat (k - 1 - (start + 1)))) by lia.
        done.
      * rewrite decide_False by lia. done.
Qed.

(** A loop over the numbered lines whose body adds [g line] does not raise
    and leaves the rest of the analyzer as it is. *)
Lemma for_each_per_line (g : pystr → option (option string))
    (f : CodeAnalyzer.t → Z * pystr → Res CodeAnalyzer.t)
    (numbered : list (Z * pystr)) :
  (∀ self p, f self p = Ok match g p.2 with
                           | Some m => CodeAnalyzer.add self (p.1 + 1) m
                           | None => self
                           end) →
  ∀ self, for_each f self numbered
          = Ok (with_issues self
                  (per_line g (CodeAnalyzer.issues self) numbered)).
Proof.
  intros Hf. induction numbered as [|p l IH]; intros self; simpl.
  - by rewrite with_issues_id.
  - rewrite Hf. simpl. rewrite IH. destruct (g p.2); done.
Qed.

Lemma line_length_per_line (self : CodeAnalyzer.t) :
  CodeAnalyzer.line_length self
  = Ok (with_issues self
          (per_line too_long (CodeAnalyzer.issues self)
             (enumerate (splitlines (CodeAnalyzer.code self))))).
Proof.
  unfold CodeAnalyzer.line_length. apply for_each_per_line.
  intros s [i line]. unfold too_long. simpl. by case_match.
Qed.

Lemma forbid_semicolons_per_line (self : CodeAnalyzer.t) :
  CodeAnalyzer.forbid_semicolons self
  = Ok (with_issues self
          (per_line has_semicolon (CodeAnalyzer.issues self)
             (enumerate (splitlines (CodeAnalyzer.code self))))).
Proof.
  unfold CodeAnalyzer.forbid_semicolons. apply for_each_per_line.
  intros s [i line]. unfold has_semicolon. simpl. by case_match.
Qed.

Lemma re_search_semicolon_spec (line : pystr) :
  re_search_semicolon line = true ↔ 59%N ∈ line.
Proof.
  unfold re_search_semicolon. rewrite existsb_exists. split.
  - intros (c & Hin & Heq). apply N.eqb_eq in Heq. subst c.
    by apply list_elem_of_In.
  - intros Hin. exists 59%N. split; [by apply list_elem_of_In | done].
Qed.

Lemma line_too_long_message (actual allowed : Z) :
  allowed < actual →
  CodeErrors.line_too_long actual allowed
  = Some ("line too long (" +:+ pretty actual +:+ " > "
            +:+ pretty allowed +:+ ")").
Proof.
  intros H. unfold CodeErrors.line_too_long.
  by rewrite (proj2 (Z.gtb_gt _ _)) by lia.
Qed.


(** ** The nesting check *)

Lemma py_index_last {A} (l : list A) (x : A) :
  last l = Some x → py_index l (len l - 1) = Ok x.
Proof.
  intros Hlast. unfold py_index, len in *.
  assert (Hlen : (0 < length l)%nat).
  { destruct l; [done | simpl; lia]. }
  rewrite last_lookup in Hlast.
  assert (Hneg : (Z.of_nat (length l) - 1 <? 0) = false)
    by (apply Z.ltb_ge; lia).
  rewrite Hneg. simpl. rewrite Hneg.
  replace (Z.to_nat (Z.of_nat (length l) - 1)) with (pred (length l)) by lia.
  by rewrite Hlast.
Qed.

Lemma nesting_too_deep_message (actual : Z) :
  3 < actual →
  CodeErrors.nesting_too_deep actual 3
  = Some ("nesting too deep (" +:+ pretty actual +:+ " > 3)").
Proof.
  intros H. unfold CodeErrors.nesting_too_deep.
  by rewrite (proj2 (Z.gtb_gt _ _)) by lia.
Qed.

Lemma max_nesting_first (self : CodeAnalyzer.t) (first : node)
    (rest : list node) :
  body (CodeAnalyzer.parsed_code self) = Ok (F_list (first :: rest)) →
  CodeAnalyzer.max_nesting self =
  let nodes := List.filter has_body (walk first) in
  if len nodes >? 3 then
    final ← py_index nodes (len nodes - 1);
    l ← lineno final;
    Ok (CodeAnalyzer.add self (l + 1)
          (CodeErrors.nesting_too_deep (len nodes) 3))
  else Ok self.
Proof.
  intros Hbody. unfold CodeAnalyzer.max_nesting. rewrite Hbody. done.
Qed.

(** ** The indentation check *)

Lemma indentation_body_first (indent last_offset : Z)
    (self : CodeAnalyzer.t) (n : node) (lc : Z * Z) :
  has_body n = true →
  first_statement n lc →
  CodeAnalyzer.indentation_size_body indent (last_offset, self) n
  = Ok (lc.2, with_issues self
                (indentation_issue indent last_offset lc
                   (CodeAnalyzer.issues self))).
Proof.
  intros Hb (first & rest & Hbody & Hl & Hc).
  unfold CodeAnalyzer.indentation_size_body. rewrite Hb, Hbody. simpl.
  change (py_index (first :: rest) 0) with (Ok first). simpl.
  rewrite Hl, Hc. simpl. unfold indentation_issue.
  replace (lc.2 >? last_offset + indent) with (lc.2 - last_offset >? indent).
  - destruct (lc.2 - last_offset >? indent) eqn:Hgt.
    + unfold CodeErrors.indentation. rewrite Hgt. done.
    + by rewrite with_issues_id.
  - rewrite !Z.gtb_ltb. destruct (Z.ltb_spec indent (lc.2 - last_offset));
      symmetry; [apply Z.ltb_lt | apply Z.ltb_ge]; lia.
Qed.

Lemma indentation_body_skip (indent last_offset : Z)
    (self : CodeAnalyzer.t) (n : node) :
  has_body n = false →
  CodeAnalyzer.indentation_size_body indent (last_offset, self) n
  = Ok (last_offset, self).
Proof.
  intros Hb. unfold CodeAnalyzer.indentation_size_body. by rewrite Hb.
Qed.

Lemma indentation_loop (indent : Z) (nodes : list node) :
  ∀ (firsts : list (Z * Z)) (last_offset : Z) (self : CodeAnalyzer.t),
    Forall2 first_statement (List.filter has_body nodes) firsts →
    for_each (CodeAnalyzer.indentation_size_body indent)
      (last_offset, self) nodes
    = Ok (default last_offset (snd <$> last firsts),
          with_issues self
            (indentation_run indent last_offset firsts
               (CodeAnalyzer.issues self))).
Proof.
  induction nodes as [|n nodes IH]; intros firsts last_offset self Hall.
  - simpl in Hall. inversion Hall; subst. simpl.
    by rewrite with_issues_id.
  - simpl in Hall. destruct (has_body n) eqn:Hb.
    + inversion Hall as [|? lc ? rest Hfirst Hrest]; subst.
      rewrite for_each_cons, (indentation_body_first _ _ _ _ lc Hb Hfirst).
      cbn [mbind Res_bind]. rewrite (IH rest lc.2 _ Hrest).
      rewrite last_cons. by destruct (last rest).
    + rewrite for_each_cons, (indentation_body_skip _ _ _ _ Hb).
      cbn [mbind Res_bind]. apply IH, Hall.
Qed.


Lemma indentation_run_issues (indent : Z) (rest : list (Z * Z)) :
  ∀ (done_ : list (Z * Z)) (s : sink),
    indentation_run indent
      (prev_offset (done_ ++ rest) (length done_)) rest s
    = foldl (λ s i, match (done_ ++ rest) !! i with
                    | Some lc =>
                        indentation_issue indent
                          (prev_offset (done_ ++ rest) i) lc s
                    | None => s
                    end) s (seq (length done_) (length rest)).
Proof.
  induction rest as [|lc rest IH]; intros done_ s; [done|].
  simpl. rewrite (list_lookup_middle done_ rest lc (length done_) eq_refl).
  specialize (IH (done_ ++ [lc])
    (indentation_issue indent
       (prev_offset (done_ ++ lc :: rest) (length done_)) lc s)).
  rewrite <- (assoc_L (++)) in IH. simpl in IH.
  rewrite length_app in IH. simpl in IH.
  replace (length done_ + 1)%nat with (S (length done_)) in IH by lia.
  rewrite <- IH. f_equal. simpl.
  by rewrite (list_lookup_middle done_ rest lc (length done_) eq_refl).
Qed.


(** ** The methods that analyze calls *)

Lemma methods_called_checks `{Runtime} (self : CodeAnalyzer.t) :
  CodeAnalyzer.truthy (CodeAnalyzer.rules self) = false →
  CodeAnalyzer.methods_called self ≡ₚ check_names.
Proof.
  intros Hrules. unfold CodeAnalyzer.methods_called. rewrite Hrules.
  cbv beta iota zeta delta [negb]. rewrite set_iter_perm.
  apply (bool_decide_unpack _). vm_compute. reflexivity.
Qed.

Lemma methods_called_none `{Runtime} (self : CodeAnalyzer.t) :
  CodeAnalyzer.truthy (CodeAnalyzer.rules self) = true →
  CodeAnalyzer.methods_called self = [].
Proof.
  intros Hrules. unfold CodeAnalyzer.methods_called. by rewrite Hrules.
Qed.

Lemma check_names_NoDup : NoDup check_names.
Proof. apply (bool_decide_unpack _). vm_compute. reflexivity. Qed.

Lemma methods_called_NoDup `{Runtime} (self : CodeAnalyzer.t) :
  NoDup (CodeAnalyzer.methods_called self).
Proof.
  destruct (CodeAnalyzer.truthy (CodeAnalyzer.rules self)) eqn:Hrules.
  - rewrite methods_called_none by done. constructor.
  - rewrite methods_called_checks by done. apply check_names_NoDup.
Qed.

(** What [getattr] finds under the name of each check. *)
Lemma call_check (m : string) (self : CodeAnalyzer.t) :
  m ∈ check_names →
  CodeAnalyzer.call m self =
  if decide (m = "line_length") then CodeAnalyzer.line_length self
  else if decide (m = "forbid_semicolons")
       then CodeAnalyzer.forbid_semicolons self
  else if decide (m = "max_nesting") then CodeAnalyzer.max_nesting self
  else if decide (m = "indentation_size")
       then CodeAnalyzer.indentation_size self
  else Ok self.
Proof.
  intros Hm. unfold check_names in Hm.
  repeat (apply elem_of_cons in Hm as [->|Hm]); try done.
  by apply elem_of_nil in Hm.
Qed.

(** If one of the called methods raises [e] in every state that satisfies
    [P], and the others keep [P] or raise [e] too, the loop raises [e]. *)
Lemma for_each_call_raises (P : CodeAnalyzer.t → Prop) (e : exn)
    (bad : string) (l : list string) :
  bad ∈ l →
  (∀ s, P s → CodeAnalyzer.call bad s = Raise e) →
  (∀ m s, m ∈ l → P s →
          CodeAnalyzer.call m s = Raise e
          ∨ ∃ s', CodeAnalyzer.call m s = Ok s' ∧ P s') →
  ∀ s, P s → for_each (λ s m, CodeAnalyzer.call m s) s l = Raise e.
Proof.
  intros Hbad Hraise. induction l as [|m l IH]; intros Hall s HP.
  - by apply elem_of_nil in Hbad.
  - rewrite for_each_cons.
    destruct (Hall m s) as [Hr|(s' & Hok & HP')]; [left | done | |].
    + by rewrite Hr.
    + rewrite Hok. simpl.
      apply elem_of_cons in Hbad as [->|Hbad].
      * rewrite Hraise in Hok; [done | done].
      * apply IH; [done | | done].
        intros m' s'' Hm'. apply Hall. by right.
Qed.

(** If one of the called methods turns a state [s] into [F s] and the
    others change nothing, the loop ends in [F s] in whatever order the
    methods come. *)
Lemma for_each_call_single (P : CodeAnalyzer.t → Prop)
    (F : CodeAnalyzer.t → CodeAnalyzer.t) (hot : string) (l : list string) :
  NoDup l →
  (∀ s, P s → CodeAnalyzer.call hot s = Ok (F s)) →
  (∀ s, P s → P (F s)) →
  (∀ m s, m ∈ l → m ≠ hot → P s → CodeAnalyzer.call m s = Ok s) →
  ∀ s, P s →
       for_each (λ s m, CodeAnalyzer.call m s) s l
       = Ok (if decide (hot ∈ l) then F s else s).
Proof.
  intros Hnd Hhot HF. induction Hnd as [|m l Hnotin Hnd IH];
    intros Hcold s HP.
  - destruct (decide (hot ∈ [])) as [Hin|_]; [|done].
    by apply elem_of_nil in Hin.
  - rewrite for_each_cons. destruct (decide (m = hot)) as [->|Hne].
    + rewrite Hhot by done. cbn [mbind Res_bind]. rewrite IH.
      * destruct (decide (hot ∈ l)) as [Hin|_]; [done|].
        destruct (decide (hot ∈ hot :: l)) as [_|Hnin]; [done|].
        destruct Hnin. by left.
      * intros m' s' Hm'. apply Hcold. by right.
      * by apply HF.
    + rewrite Hcold; [|left|done|done]. cbn [mbind Res_bind]. rewrite IH.
      * destruct (decide (hot ∈ l)) as [Hin|Hnin];
          destruct (decide (hot ∈ m :: l)) as [Hin'|Hnin']; try done.
        -- destruct Hnin'. by right.
        -- apply elem_of_cons in Hin' as [?|?]; congruence.
      * intros m' s' Hm'. apply Hcold. by right.
      * done.
Qed.

Lemma body_has_body (n : node) (v : field_value node) :
  body n = Ok v → has_body n = true.
Proof.
  unfold body, has_body. induction (node_fields n) as [|[f w] fs IH];
    simpl; [done|].
  destruct (String.eqb f "body"); [done | apply IH].
Qed.

(** * The claims *)



(** C1.  When the parser gives a tree whose top-level body is empty, as it
    does for the empty source, [critic] raises [IndexError], in whatever
    order the checks are called: the nesting check and the indentation
    check both take the first statement of an empty list.  (With an
    override named [code] the call has raised [TypeError] before that.) *)
Theorem critic_empty_body_raises `{Runtime} (code : pystr) (tree : node)
    (rules : gmap string pyval) :
  ast_parse code = Ok tree →
  body tree = Ok (F_list []) →
  critic code rules
  = Raise match rules !! "code" with
          | Some _ => TypeError
          | None => IndexError
          end.
Proof.
  intros Hparse Hbody. unfold critic, CodeAnalyzer.__init__.
  destruct (rules !! "code"); [done|].
  rewrite Hparse. cbn [mbind Res_bind]. unfold CodeAnalyzer.analyze.
  set (self := CodeAnalyzer.mk tree code None ∅).
  rewrite (for_each_call_raises
             (λ s, CodeAnalyzer.parsed_code s = tree)
             IndexError "max_nesting"); [done | | | | done].
  - rewrite methods_called_checks by done.
    apply (bool_decide_unpack _). vm_compute. reflexivity.
  - intros s HP. rewrite call_check
      by (apply (bool_decide_unpack _); vm_compute; reflexivity).
    repeat case_decide; try done.
    unfold CodeAnalyzer.max_nesting. by rewrite HP, Hbody.
  - intros m s Hm HP. rewrite methods_called_checks in Hm by done.
    rewrite call_check by done. repeat case_decide.
    + right. eexists. split; [apply line_length_per_line | done].
    + right. eexists. split; [apply forbid_semicolons_per_line | done].
    + left. unfold CodeAnalyzer.max_nesting. by rewrite HP, Hbody.
    + left. unfold CodeAnalyzer.indentation_size. rewrite HP.
      destruct (walk_head tree) as [rest ->]. rewrite for_each_cons.
      unfold CodeAnalyzer.indentation_size_body.
      by rewrite (body_has_body _ _ Hbody), Hbody.
    + right. by exists s.
Qed.

Lemma critic_empty_body_raises_witness :
  @critic Examples.runtime Examples.empty_src ∅ = Raise IndexError.
Proof.
  exact (@critic_empty_body_raises Examples.runtime Examples.empty_src
           Examples.empty_tree ∅ eq_refl eq_refl).
Defined.

(** C2.  The default of [max_nesting] in [RULES] is [None], and yet, for
    the source of four nested blocks, [critic] returns the issue
    "nesting too deep (4 > 3)" under line 5, in whatever order the checks
    are called: the nesting check compares with 3 and does not read
    [RULES].  (With an override named [code] the call has raised
    [TypeError] before that.) *)
Theorem critic_nesting_fires_by_default `{Runtime}
    (rules : gmap string pyval) :
  ast_parse Examples.nested_src = Ok Examples.nested_tree →
  CodeAnalyzer.RULES.max_nesting = None
  ∧ critic Examples.nested_src rules
    = match rules !! "code" with
      | Some _ => Raise TypeError
      | None => Ok (add_issue 5 (Some "nesting too deep (4 > 3)") ∅)
      end.
Proof.
  intros Hparse. split; [done|]. unfold critic, CodeAnalyzer.__init__.
  destruct (rules !! "code"); [done|].
  rewrite Hparse. cbn [mbind Res_bind]. unfold CodeAnalyzer.analyze.
  set (self := CodeAnalyzer.mk Examples.nested_tree Examples.nested_src
                 None ∅).
  rewrite (for_each_call_single
             (λ s, CodeAnalyzer.parsed_code s = Examples.nested_tree
                   ∧ CodeAnalyzer.code s = Examples.nested_src)
             (λ s, CodeAnalyzer.add s 5 (Some "nesting too deep (4 > 3)"))
             "max_nesting").
  - rewrite decide_True; [done|]. rewrite methods_called_checks by done.
    apply (bool_decide_unpack _). vm_compute. reflexivity.
  - apply methods_called_NoDup.
  - intros [tree src r i] [Htree Hsrc]. simpl in Htree, Hsrc. subst.
    reflexivity.
  - intros s HP. done.
  - intros m [tree src r i] Hm Hne [Htree Hsrc]. simpl in Htree, Hsrc.
    subst. rewrite methods_called_checks in Hm by done.
    rewrite call_check by done. repeat case_decide; done.
  - done.
Qed.

Lemma critic_nesting_fires_by_default_witness :
  @critic Examples.runtime Examples.nested_src ∅
  = Ok (add_issue 5 (Some "nesting too deep (4 > 3)") ∅).
Proof.
  exact (proj2 (@critic_nesting_fires_by_default Examples.runtime ∅
                  eq_refl)).
Defined.

(** C3, as amended.  For every source and every mapping of overrides
    without the key [code], [critic] returns with the overrides what it
    returns without them, be it the issues or the exception; with the key
    [code] among the overrides the call raises [TypeError]. *)
Theorem critic_ignores_rules `{Runtime} (code : pystr)
    (rules : gmap string pyval) :
  critic code rules
  = match rules !! "code" with
    | Some _ => Raise TypeError
    | None => critic code ∅
    end.
Proof.
  unfold critic. rewrite lookup_empty. by destruct (rules !! "code").
Qed.

(** C3 as stated fails: with the override [code] the call raises
    [TypeError], and without overrides it returns the empty issues. *)
Lemma critic_code_override_raises :
  @critic Examples.runtime Examples.pass_src {["code" := PyInt 1]}
  = Raise TypeError
  ∧ @critic Examples.runtime Examples.pass_src ∅ = Ok ∅
  ∧ @critic Examples.runtime Examples.pass_src {["code" := PyInt 1]}
    ≠ @critic Examples.runtime Examples.pass_src ∅.
Proof.
  assert (Hclash : @critic Examples.runtime Examples.pass_src
                     {["code" := PyInt 1]} = Raise TypeError)
    by reflexivity.
  assert (Hnone : @critic Examples.runtime Examples.pass_src ∅ = Ok ∅)
    by reflexivity.
  split; [done|]. split; [done|]. by rewrite Hclash, Hnone.
Qed.

(** C4, as amended.  When the mapping of overrides has a key [k] that is
    not the name of a rule, [critic] raises no configuration error, for it
    reads no override, known or not.  If [k] is [code], the name of the
    parameter of [critic] and no name of a rule, the call raises
    [TypeError] before an analyzer exists; any other [k] is ignored: the
    call returns what it returns without [k] and, when [code] is not among
    the overrides either, what it returns without overrides. *)
Theorem critic_unknown_rule_ignored `{Runtime} (code : pystr)
    (rules : gmap string pyval) (k : string) :
  k ∈ dom rules →
  ("code" ∉ CodeAnalyzer.RULES.keys)
  ∧ (k = "code" → critic code rules = Raise TypeError)
  ∧ (k ≠ "code" → critic code rules = critic code (delete k rules))
  ∧ (rules !! "code" = None → critic code rules = critic code ∅).
Proof.
  intros Hk. split; [|split; [|split]].
  - apply (bool_decide_unpack _). vm_compute. reflexivity.
  - intros ->. apply elem_of_dom in Hk as [v Hv]. unfold critic.
    by rewrite Hv.
  - intros Hne. unfold critic. by rewrite lookup_delete_ne.
  - intros Hbound. unfold critic. by rewrite Hbound, lookup_empty.
Qed.

Lemma critic_unknown_rule_ignored_witness :
  @critic Examples.runtime Examples.pass_src {["bogus" := PyInt 1]}
  = @critic Examples.runtime Examples.pass_src ∅.
Proof.
  destruct (@critic_unknown_rule_ignored Examples.runtime Examples.pass_src
              {["bogus" := PyInt 1]} "bogus") as (_ & _ & _ & Hnone).
  - rewrite dom_singleton_L. by apply elem_of_singleton.
  - apply Hnone. reflexivity.
Defined.

(** C4 as stated fails: with the unknown key "bogus" among the overrides,
    [critic] returns the empty issues for the source "pass" and raises
    nothing. *)
Lemma critic_unknown_rule_returns :
  ("bogus" ∉ CodeAnalyzer.RULES.keys)
  ∧ "bogus" ∈ dom ({["bogus" := PyInt 1]} : gmap string pyval)
  ∧ (@critic Examples.runtime Examples.pass_src {["bogus" := PyInt 1]}
     = Ok ∅).
Proof.
  split; [|split].
  - apply (bool_decide_unpack _). vm_compute. reflexivity.
  - rewrite dom_singleton_L. by apply elem_of_singleton.
  - vm_compute. reflexivity.
Qed.

(** C10.  When a [CodeAnalyzer] is constructed with a mapping of rules that
    is not empty, for a source that parses, [analyze] calls no method and
    returns the empty issues. *)
Theorem analyze_with_rules `{Runtime} (code : pystr) (tree : node)
    (rules : gmap string pyval) :
  rules ≠ ∅ →
  ast_parse code = Ok tree →
  ∃ self,
    CodeAnalyzer.__init__ code (Some rules) = Ok self
    ∧ CodeAnalyzer.methods_called self = []
    ∧ CodeAnalyzer.analyze self = Ok ∅.
Proof.
  intros Hrules Hparse. unfold CodeAnalyzer.__init__. rewrite Hparse.
  eexists. split; [reflexivity|].
  assert (Hnone : CodeAnalyzer.methods_called
                    (CodeAnalyzer.mk tree code (Some rules) ∅) = []).
  { apply methods_called_none. simpl. by rewrite bool_decide_eq_false_2. }
  split; [done|]. unfold CodeAnalyzer.analyze. by rewrite Hnone.
Qed.

Lemma analyze_with_rules_witness :
  ∃ self,
    @CodeAnalyzer.__init__ Examples.runtime Examples.empty_src
      (Some {["line_length" := PyInt 100]}) = Ok self
    ∧ @CodeAnalyzer.methods_called Examples.runtime self = []
    ∧ @CodeAnalyzer.analyze Examples.runtime self = Ok ∅.
Proof.
  apply (@analyze_with_rules Examples.runtime Examples.empty_src
           Examples.empty_tree {["line_length" := PyInt 100]}).
  - apply insert_non_empty.
  - reflexivity.
Defined.

(** * Further properties *)

(** ** The union of issues *)

Lemma sink_union_lookup (a b : sink) (k : Z) :
  sink_union a b !! k
  = match a !! k, b !! k with
    | Some x, Some y => Some (x ∪ y)
    | Some x, None => Some x
    | None, Some y => Some y
    | None, None => None
    end.
Proof.
  unfold sink_union. rewrite lookup_union_with.
  by destruct (a !! k), (b !! k).
Qed.

Lemma sink_union_empty_l (s : sink) : sink_union ∅ s = s.
Proof.
  apply map_eq. intros k. rewrite sink_union_lookup, lookup_empty.
  by destruct (s !! k).
Qed.

Lemma sink_union_empty_r (s : sink) : sink_union s ∅ = s.
Proof.
  apply map_eq. intros k. rewrite sink_union_lookup, lookup_empty.
  by destruct (s !! k).
Qed.

Lemma sink_union_comm (a b : sink) : sink_union a b = sink_union b a.
Proof.
  apply map_eq. intros k. rewrite !sink_union_lookup.
  destruct (a !! k), (b !! k); try done. by rewrite (comm_L (∪)).
Qed.

Lemma sink_union_assoc (a b c : sink) :
  sink_union a (sink_union b c) = sink_union (sink_union a b) c.
Proof.
  apply map_eq. intros k. rewrite !sink_union_lookup.
  destruct (a !! k), (b !! k), (c !! k); try done.
  by rewrite (assoc_L (∪)).
Qed.

Lemma sink_union_idemp (a : sink) : sink_union a a = a.
Proof.
  apply map_eq. intros k. rewrite sink_union_lookup.
  destruct (a !! k); [|done]. by rewrite (idemp_L (∪)).
Qed.

Lemma add_issue_sink_union (k : Z) (m : option string) (a s : sink) :
  add_issue k m (sink_union a s) = sink_union (add_issue k m a) s.
Proof.
  apply map_eq. intros k'. destruct (decide (k = k')) as [<-|Hne].
  - rewrite lookup_add_issue_eq, !sink_union_lookup, lookup_add_issue_eq.
    destruct (a !! k), (s !! k); simpl; f_equal;
      rewrite ?(right_id_L ∅ (∪)), ?(assoc_L (∪)); done.
  - rewrite lookup_add_issue_ne, !sink_union_lookup by done.
    by rewrite lookup_add_issue_ne by done.
Qed.

Lemma add_issue_as_union (k : Z) (m : option string) (s : sink) :
  add_issue k m s = sink_union (add_issue k m ∅) s.
Proof. by rewrite <- add_issue_sink_union, sink_union_empty_l. Qed.

Lemma per_line_union (g : pystr → option (option string))
    (numbered : list (Z * pystr)) :
  ∀ a s : sink,
    per_line g (sink_union a s) numbered
    = sink_union (per_line g a numbered) s.
Proof.
  induction numbered as [|p l IH]; intros a s; [done|].
  unfold per_line in *. simpl. destruct (g p.2) as [m|]; [|apply IH].
  rewrite add_issue_sink_union. apply IH.
Qed.

(** ** Each check adds its own findings to the issues it is given *)

Lemma indentation_message (actual allowed : Z) :
  allowed < actual →
  CodeErrors.indentation actual allowed
  = Some ("indentation is " +:+ pretty actual +:+ " instead of "
            +:+ pretty allowed).
Proof.
  intros H. unfold CodeErrors.indentation.
  by rewrite (proj2 (Z.gtb_gt _ _)) by lia.
Qed.

(** One turn of the loop of the indentation check raises, or keeps the
    analyzer, or adds one message; which of the three does not depend on
    the analyzer. *)
Lemma indentation_body_cases (indent last_offset : Z) (n : node) :
  (∃ e, ∀ self,
     CodeAnalyzer.indentation_size_body indent (last_offset, self) n
     = Raise e)
  ∨ (∃ c, ∀ self,
       CodeAnalyzer.indentation_size_body indent (last_offset, self) n
       = Ok (c, self))
  ∨ (∃ c l d, indent < d ∧ ∀ self,
       CodeAnalyzer.indentation_size_body indent (last_offset, self) n
       = Ok (c, CodeAnalyzer.add self l
                  (Some ("indentation is " +:+ pretty d +:+ " instead of "
                           +:+ pretty indent)))).
Proof.
  unfold CodeAnalyzer.indentation_size_body.
  destruct (has_body n); [|right; left; by eexists].
  destruct (body n) as [b|e]; [|left; by eexists].
  cbn [mbind Res_bind].
  destruct (subscript0 b) as [first|e]; [|left; by eexists].
  cbn [mbind Res_bind].
  destruct (lineno first) as [l|e]; [|left; by eexists].
  cbn [mbind Res_bind].
  destruct (col_offset first) as [c|e]; [|left; by eexists].
  cbn [mbind Res_bind].
  destruct (c >? last_offset + indent) eqn:Hgt.
  - right; right. exists c, l, (c - last_offset).
    apply Z.gtb_gt in Hgt. split; [lia|]. intros self.
    by rewrite indentation_message by lia.
  - right; left. by eexists.
Qed.

Lemma indentation_loop_union (indent : Z) (self : CodeAnalyzer.t)
    (s : sink) (nodes : list node) :
  ∀ (last_offset : Z) (a : sink),
    for_each (CodeAnalyzer.indentation_size_body indent)
      (last_offset, with_issues self (sink_union a s)) nodes
    = (st ← for_each (CodeAnalyzer.indentation_size_body indent)
              (last_offset, with_issues self a) nodes;
       Ok (st.1, with_issues self
                   (sink_union (CodeAnalyzer.issues st.2) s))).
Proof.
  induction nodes as [|n nodes IH]; intros last_offset a; [done|].
  rewrite !for_each_cons.
  destruct (indentation_body_cases indent last_offset n)
    as [[e He]|[[c Hc]|(c & l & d & _ & Hadd)]].
  - by rewrite !He.
  - rewrite !Hc. cbn [mbind Res_bind]. apply IH.
  - rewrite !Hadd. cbn [mbind Res_bind].
    set (msg := Some _).
    change (CodeAnalyzer.add (with_issues self a) l msg)
      with (with_issues self (add_issue l msg a)).
    change (CodeAnalyzer.add (with_issues self (sink_union a s)) l msg)
      with (with_issues self (add_issue l msg (sink_union a s))).
    rewrite add_issue_sink_union. apply IH.
Qed.

Lemma indentation_size_union (self : CodeAnalyzer.t) :
  CodeAnalyzer.indentation_size self
  = (r ← CodeAnalyzer.indentation_size (with_issues self ∅);
     Ok (with_issues self
           (sink_union (CodeAnalyzer.issues r) (CodeAnalyzer.issues self)))).
Proof.
  unfold CodeAnalyzer.indentation_size.
  change (CodeAnalyzer.parsed_code (with_issues self ∅))
    with (CodeAnalyzer.parsed_code self).
  rewrite <- (with_issues_id self) at 1.
  rewrite <- (sink_union_empty_l (CodeAnalyzer.issues self)) at 1.
  rewrite indentation_loop_union.
  change (with_issues (with_issues self ∅) ∅) with (with_issues self ∅).
  destruct (for_each _ (0, with_issues self ∅) _) as [[c r]|e]; done.
Qed.

Lemma max_nesting_union (self : CodeAnalyzer.t) :
  CodeAnalyzer.max_nesting self
  = (r ← CodeAnalyzer.max_nesting (with_issues self ∅);
     Ok (with_issues self
           (sink_union (CodeAnalyzer.issues r) (CodeAnalyzer.issues self)))).
Proof.
  unfold CodeAnalyzer.max_nesting.
  change (CodeAnalyzer.parsed_code (with_issues self ∅))
    with (CodeAnalyzer.parsed_code self).
  destruct (body (CodeAnalyzer.parsed_code self)) as [top|e]; [|done].
  cbn [mbind Res_bind]. destruct (subscript0 top) as [first|e]; [|done].
  cbn [mbind Res_bind].
  destruct (len (List.filter has_body (walk first)) >? 3).
  - destruct (py_index _ _) as [final|e]; [|done]. cbn [mbind Res_bind].
    destruct (lineno final) as [l|e]; [|done]. cbn [mbind Res_bind].
    f_equal. unfold CodeAnalyzer.add, with_issues. simpl. f_equal.
    apply add_issue_as_union.
  - cbn [mbind Res_bind]. simpl.
    by rewrite sink_union_empty_l, with_issues_id.
Qed.

(** Each check, given an analyzer with issues, raises what it raises on
    the same analyzer without issues, or returns the analyzer with the
    union of what it finds there and the issues it was given. *)
Lemma call_union (m : string) (self : CodeAnalyzer.t) :
  m ∈ check_names →
  CodeAnalyzer.call m self
  = (d ← findings m self;
     Ok (with_issues self (sink_union d (CodeAnalyzer.issues self)))).
Proof.
  intros Hm. unfold findings. rewrite !call_check by done.
  repeat case_decide.
  - rewrite !line_length_per_line. cbn [mbind Res_bind]. simpl.
    by rewrite <- per_line_union, sink_union_empty_l.
  - rewrite !forbid_semicolons_per_line. cbn [mbind Res_bind]. simpl.
    by rewrite <- per_line_union, sink_union_empty_l.
  - rewrite max_nesting_union at 1.
    by destruct (CodeAnalyzer.max_nesting (with_issues self ∅)).
  - rewrite indentation_size_union at 1.
    by destruct (CodeAnalyzer.indentation_size (with_issues self ∅)).
  - cbn [mbind Res_bind]. simpl.
    by rewrite sink_union_empty_l, with_issues_id.
Qed.

(** ** The loop of analyze in terms of the findings *)

Lemma all_findings_with_issues (self : CodeAnalyzer.t) (s : sink)
    (l : list string) :
  all_findings (with_issues self s) l = all_findings self l.
Proof. induction l as [|m l IH]; simpl; [done | by rewrite IH]. Qed.

Lemma for_each_call_findings (l : list string) :
  Forall (λ m, m ∈ check_names) l →
  ∀ self,
    for_each (λ s m, CodeAnalyzer.call m s) self l
    = (d ← all_findings self l;
       Ok (with_issues self (sink_union d (CodeAnalyzer.issues self)))).
Proof.
  induction 1 as [|m l Hm Hl IH]; intros self.
  - simpl. by rewrite sink_union_empty_l, with_issues_id.
  - rewrite for_each_cons, (call_union m self Hm). simpl all_findings.
    destruct (findings m self) as [d|e]; [|done]. cbn [mbind Res_bind].
    rewrite IH, all_findings_with_issues.
    destruct (all_findings self l) as [ds|e]; [|done].
    cbn [mbind Res_bind]. simpl. by rewrite sink_union_assoc.
Qed.

Lemma all_findings_perm (self : CodeAnalyzer.t) (l1 l2 : list string) :
  l1 ≡ₚ l2 →
  ∀ d, all_findings self l1 = Ok d → all_findings self l2 = Ok d.
Proof.
  induction 1 as [|m l1 l2 Hperm IH|m1 m2 l|l1 l2 l3 H12 IH12 H23 IH23];
    intros d Hd.
  - done.
  - simpl in *. destruct (findings m self) as [dm|]; [|done].
    cbn [mbind Res_bind] in *.
    destruct (all_findings self l1) as [d1|]; [|done].
    by rewrite (IH d1 eq_refl).
  - simpl in *.
    destruct (findings m1 self) as [d1|];
      destruct (findings m2 self) as [d2|]; try done.
    cbn [mbind Res_bind] in *.
    destruct (all_findings self l) as [dl|]; [|done].
    cbn [mbind Res_bind] in *. rewrite <- Hd. f_equal.
    rewrite <- !sink_union_assoc. f_equal. apply sink_union_comm.
  - by apply IH23, IH12.
Qed.

Lemma all_findings_raise (self : CodeAnalyzer.t) (l : list string)
    (e : exn) :
  all_findings self l = Raise e →
  ∃ m, m ∈ l ∧ findings m self = Raise e.
Proof.
  induction l as [|m l IH]; simpl; [done|].
  destruct (findings m self) as [d|e'] eqn:Hm.
  - cbn [mbind Res_bind].
    destruct (all_findings self l) as [ds|e'']; [done|].
    intros [= ->]. destruct (IH eq_refl) as (m' & Hin & Hr).
    exists m'. split; [by right | done].
  - intros [= ->]. exists m. split; [by left | done].
Qed.

Lemma methods_called_Forall `{Runtime} (self : CodeAnalyzer.t) :
  Forall (λ m, m ∈ check_names) (CodeAnalyzer.methods_called self).
Proof.
  apply Forall_forall. intros m Hm.
  destruct (CodeAnalyzer.truthy (CodeAnalyzer.rules self)) eqn:Hrules.
  - rewrite methods_called_none in Hm by done. by apply elem_of_nil in Hm.
  - by rewrite methods_called_checks in Hm.
Qed.

(** What analyze returns, for rules that are not set: the findings of the
    eight checks, on top of the issues that the analyzer has. *)
Lemma analyze_findings `{Runtime} (self : CodeAnalyzer.t) (d : sink) :
  CodeAnalyzer.truthy (CodeAnalyzer.rules self) = false →
  all_findings self check_names = Ok d →
  CodeAnalyzer.analyze self
  = Ok (sink_union d (CodeAnalyzer.issues self)).
Proof.
  intros Hrules Hd. unfold CodeAnalyzer.analyze.
  rewrite (for_each_call_findings _ (methods_called_Forall self)).
  rewrite (all_findings_perm self check_names
             (CodeAnalyzer.methods_called self) (symmetry
                (methods_called_checks self Hrules)) d Hd).
  done.
Qed.

Lemma analyze_ok_findings `{Runtime} (self : CodeAnalyzer.t) (s : sink) :
  CodeAnalyzer.truthy (CodeAnalyzer.rules self) = false →
  CodeAnalyzer.analyze self = Ok s →
  ∃ d, all_findings self check_names = Ok d
       ∧ s = sink_union d (CodeAnalyzer.issues self).
Proof.
  intros Hrules. unfold CodeAnalyzer.analyze.
  rewrite (for_each_call_findings _ (methods_called_Forall self)).
  destruct (all_findings self (CodeAnalyzer.methods_called self))
    as [d|e] eqn:Hd; [|done].
  cbn [mbind Res_bind]. intros [= <-]. exists d. split; [|done].
  apply (all_findings_perm self (CodeAnalyzer.methods_called self)); [|done].
  by apply methods_called_checks.
Qed.

Lemma analyze_raise_findings `{Runtime} (self : CodeAnalyzer.t) (e : exn) :
  CodeAnalyzer.analyze self = Raise e →
  ∃ m, m ∈ check_names ∧ findings m self = Raise e.
Proof.
  unfold CodeAnalyzer.analyze.
  rewrite (for_each_call_findings _ (methods_called_Forall self)).
  destruct (all_findings self (CodeAnalyzer.methods_called self))
    as [d|e'] eqn:Hd; [done|].
  intros [= ->]. destruct (all_findings_raise _ _ _ Hd) as (m & Hm & Hr).
  exists m. split; [|done].
  pose proof (methods_called_Forall self) as Hall.
  rewrite Forall_forall in Hall. by apply Hall.
Qed.

Lemma critic_parsed `{Runtime} (code : pystr) (rules : gmap string pyval)
    (tree : node) :
  rules !! "code" = None →
  ast_parse code = Ok tree →
  critic code rules
  = CodeAnalyzer.analyze (CodeAnalyzer.mk tree code None ∅).
Proof.
  intros Hbound Hparse. unfold critic, CodeAnalyzer.__init__.
  by rewrite Hbound, Hparse.
Qed.

Lemma critic_unparsed `{Runtime} (code : pystr) (rules : gmap string pyval)
    (e : exn) :
  rules !! "code" = None →
  ast_parse code = Raise e → critic code rules = Raise e.
Proof.
  intros Hbound Hparse. unfold critic, CodeAnalyzer.__init__.
  by rewrite Hbound, Hparse.
Qed.

Lemma critic_clash `{Runtime} (code : pystr) (rules : gmap string pyval) :
  is_Some (rules !! "code") → critic code rules = Raise TypeError.
Proof. intros [v Hv]. unfold critic. by rewrite Hv. Qed.

Lemma critic_ok_bound `{Runtime} (code : pystr) (rules : gmap string pyval)
    (s : sink) :
  critic code rules = Ok s → rules !! "code" = None.
Proof. unfold critic. by destruct (rules !! "code"). Qed.

Lemma sink_union_four (a b c d : sink) :
  sink_union
    (sink_union
       (sink_union
          (sink_union
             (sink_union
                (sink_union (sink_union (sink_union ∅ ∅) c) ∅) ∅) a) d) ∅) b
  = sink_union a (sink_union b (sink_union c d)).
Proof.
  rewrite !sink_union_empty_r, !sink_union_empty_l.
  apply map_eq. intros k. rewrite !sink_union_lookup.
  destruct (a !! k), (b !! k), (c !! k), (d !! k); try done; f_equal;
    apply set_eq; intros x; rewrite !elem_of_union; tauto.
Qed.

(** The findings of the eight checks are those of the four checks that
    look at something. *)
Lemma all_findings_checks (self : CodeAnalyzer.t) (d : sink) :
  all_findings self check_names = Ok d
  ↔ ∃ rl rs rn ri,
      CodeAnalyzer.line_length (with_issues self ∅) = Ok rl
      ∧ CodeAnalyzer.forbid_semicolons (with_issues self ∅) = Ok rs
      ∧ CodeAnalyzer.max_nesting (with_issues self ∅) = Ok rn
      ∧ CodeAnalyzer.indentation_size (with_issues self ∅) = Ok ri
      ∧ d = sink_union (CodeAnalyzer.issues rl)
              (sink_union (CodeAnalyzer.issues rs)
                 (sink_union (CodeAnalyzer.issues rn)
                    (CodeAnalyzer.issues ri))).
Proof.
  unfold check_names. cbn [all_findings]. unfold findings.
  change (CodeAnalyzer.call "forbid_semicolons" (with_issues self ∅))
    with (CodeAnalyzer.forbid_semicolons (with_issues self ∅)).
  change (CodeAnalyzer.call "indentation_size" (with_issues self ∅))
    with (CodeAnalyzer.indentation_size (with_issues self ∅)).
  change (CodeAnalyzer.call "line_length" (with_issues self ∅))
    with (CodeAnalyzer.line_length (with_issues self ∅)).
  change (CodeAnalyzer.call "max_nesting" (with_issues self ∅))
    with (CodeAnalyzer.max_nesting (with_issues self ∅)).
  change (CodeAnalyzer.call "forbid_trailing_whitespace"
            (with_issues self ∅)) with (Ok (with_issues self ∅)).
  change (CodeAnalyzer.call "max_arity" (with_issues self ∅))
    with (Ok (with_issues self ∅)).
  change (CodeAnalyzer.call "max_lines_per_function" (with_issues self ∅))
    with (Ok (with_issues self ∅)).
  change (CodeAnalyzer.call "methods_per_class" (with_issues self ∅))
    with (Ok (with_issues self ∅)).
  destruct (CodeAnalyzer.forbid_semicolons _) as [rs|e1];
    destruct (CodeAnalyzer.indentation_size _) as [ri|e2];
    destruct (CodeAnalyzer.line_length _) as [rl|e3];
    destruct (CodeAnalyzer.max_nesting _) as [rn|e4];
    cbn [mbind Res_bind CodeAnalyzer.issues with_issues];
    try (split; [done | by intros (? & ? & ? & ? & ? & ? & ? & ? & ?)]).
  rewrite sink_union_four. split.
  - intros [= <-]. by exists rl, rs, rn, ri.
  - intros (? & ? & ? & ? & [= <-] & [= <-] & [= <-] & [= <-] & ->). done.
Qed.

(** * Properties beyond the claims *)

(** X1.  A check that returns keeps the tree, the code and the rules of the
    analyzer, and keeps every message that was recorded before it ran. *)
Theorem check_keeps_issues (m : string) (self self' : CodeAnalyzer.t) :
  m ∈ check_names →
  CodeAnalyzer.call m self = Ok self' →
  CodeAnalyzer.parsed_code self' = CodeAnalyzer.parsed_code self
  ∧ CodeAnalyzer.code self' = CodeAnalyzer.code self
  ∧ CodeAnalyzer.rules self' = CodeAnalyzer.rules self
  ∧ ∀ (k : Z) (msgs : gset (option string)),
      CodeAnalyzer.issues self !! k = Some msgs →
      ∃ msgs', CodeAnalyzer.issues self' !! k = Some msgs' ∧ msgs ⊆ msgs'.
Proof.
  intros Hm. rewrite (call_union m self Hm).
  destruct (findings m self) as [d|e]; [|done].
  intros [= <-]. repeat split. intros k msgs Hk. simpl.
  rewrite sink_union_lookup, Hk. destruct (d !! k) as [x|].
  - eexists. split; [done|]. apply union_subseteq_r.
  - by eexists.
Qed.

Lemma check_keeps_issues_witness :
  let self := CodeAnalyzer.mk Examples.semicolon_tree Examples.semicolon_src
                None {[ 1 := {[ Some "earlier" ]} ]} in
  ∃ msgs',
    add_issue 1 (Some "multiple expressions on the same line")
      (CodeAnalyzer.issues self) !! 1 = Some msgs'
    ∧ ({[ Some "earlier" ]} : gset (option string)) ⊆ msgs'.
Proof.
  intros self.
  destruct (check_keeps_issues "forbid_semicolons" self
              (CodeAnalyzer.add self 1
                 (Some "multiple expressions on the same line")))
    as (_ & _ & _ & Hkeep).
  - apply (bool_decide_unpack _). vm_compute. reflexivity.
  - reflexivity.
  - apply (Hkeep 1). reflexivity.
Defined.

(** X2.  What a check does to an analyzer that has issues already is what
    it does to the same analyzer without issues: it raises the same
    exception, or it returns the union of what it finds there and the
    issues that were there. *)
Theorem check_on_issues (m : string) (self : CodeAnalyzer.t) :
  m ∈ check_names →
  CodeAnalyzer.call m self
  = (r ← CodeAnalyzer.call m (with_issues self ∅);
     Ok (with_issues self
           (sink_union (CodeAnalyzer.issues r) (CodeAnalyzer.issues self)))).
Proof.
  intros Hm. rewrite (call_union m self Hm). unfold findings.
  by destruct (CodeAnalyzer.call m (with_issues self ∅)).
Qed.

Lemma check_on_issues_witness :
  let self := CodeAnalyzer.mk Examples.nested_tree Examples.nested_src
                None {[ 5 := {[ Some "earlier" ]} ]} in
  CodeAnalyzer.call "max_nesting" self
  = (r ← CodeAnalyzer.call "max_nesting" (with_issues self ∅);
     Ok (with_issues self
           (sink_union (CodeAnalyzer.issues r) (CodeAnalyzer.issues self)))).
Proof.
  intros self. apply (check_on_issues "max_nesting" self).
  apply (bool_decide_unpack _). vm_compute. reflexivity.
Defined.

(** X3.  The issues that [critic] returns do not depend on the order in
    which the set of methods is iterated: if it returns issues in one
    runtime, it returns the same issues in every runtime with the same
    parse of the source. *)
Theorem critic_order_independent (R1 R2 : Runtime) (code : pystr)
    (rules : gmap string pyval) (s : sink) :
  @ast_parse R1 code = @ast_parse R2 code →
  @critic R1 code rules = Ok s →
  @critic R2 code rules = Ok s.
Proof.
  intros Hparse Hs. pose proof (@critic_ok_bound R1 _ _ _ Hs) as Hbound.
  revert Hs. destruct (@ast_parse R1 code) as [tree|e] eqn:H1.
  - rewrite (@critic_parsed R1 _ _ _ Hbound H1).
    rewrite (@critic_parsed R2 _ _ _ Hbound (eq_sym Hparse)).
    intros Hs. apply (@analyze_ok_findings R1) in Hs as (d & Hd & ->);
      [|done].
    by apply (@analyze_findings R2).
  - by rewrite (@critic_unparsed R1 _ _ _ Hbound H1).
Qed.

Lemma critic_order_independent_witness :
  @critic reversed_runtime Examples.nested_src ∅
  = Ok (add_issue 5 (Some "nesting too deep (4 > 3)") ∅).
Proof.
  apply (critic_order_independent Examples.runtime reversed_runtime).
  - reflexivity.
  - reflexivity.
Defined.

(** X4.  For a source that parses, [critic] returns issues exactly when
    no override is named [code] and each of the four checks that look at
    something returns on a new analyzer, and the issues are then the union
    of what the four find. *)
Theorem critic_union_of_checks `{Runtime} (code : pystr)
    (rules : gmap string pyval) (tree : node) (s : sink) :
  ast_parse code = Ok tree →
  let new := CodeAnalyzer.mk tree code None ∅ in
  critic code rules = Ok s
  ↔ rules !! "code" = None
    ∧ ∃ rl rs rn ri,
        CodeAnalyzer.line_length new = Ok rl
        ∧ CodeAnalyzer.forbid_semicolons new = Ok rs
        ∧ CodeAnalyzer.max_nesting new = Ok rn
        ∧ CodeAnalyzer.indentation_size new = Ok ri
        ∧ s = sink_union (CodeAnalyzer.issues rl)
                (sink_union (CodeAnalyzer.issues rs)
                   (sink_union (CodeAnalyzer.issues rn)
                      (CodeAnalyzer.issues ri))).
Proof.
  intros Hparse new.
  pose proof (all_findings_checks new s) as Hchecks.
  change (with_issues new ∅) with new in Hchecks.
  rewrite <- Hchecks. clear Hchecks. split.
  - intros Hs. pose proof (critic_ok_bound _ _ _ Hs) as Hbound.
    split; [done|]. rewrite (critic_parsed _ _ _ Hbound Hparse) in Hs.
    apply analyze_ok_findings in Hs as (d & Hd & ->); [|done].
    by rewrite sink_union_empty_r.
  - intros [Hbound Hd]. rewrite (critic_parsed _ _ _ Hbound Hparse).
    rewrite (analyze_findings new s eq_refl Hd).
    by rewrite sink_union_empty_r.
Qed.

Lemma critic_union_of_checks_witness :
  @critic Examples.runtime Examples.indent5_src ∅
  = Ok (add_issue 2 (Some "indentation is 5 instead of 4") ∅).
Proof.
  apply (@critic_union_of_checks Examples.runtime Examples.indent5_src ∅
           Examples.indent5_tree); [reflexivity|].
  split; [reflexivity|].
  eexists _, _, _, _. repeat split; reflexivity.
Defined.

(** X5.  For a source that parses, an exception of [critic] is the
    [TypeError] of a call with an override named [code], or an exception
    that the nesting check or the indentation check raises on a new
    analyzer, and [critic] raises whenever one of these two does; the
    other checks never raise. *)
Theorem critic_raises `{Runtime} (code : pystr)
    (rules : gmap string pyval) (tree : node) :
  ast_parse code = Ok tree →
  let new := CodeAnalyzer.mk tree code None ∅ in
  (∀ e, critic code rules = Raise e →
        (is_Some (rules !! "code") ∧ e = TypeError)
        ∨ CodeAnalyzer.max_nesting new = Raise e
        ∨ CodeAnalyzer.indentation_size new = Raise e)
  ∧ ((∃ e, CodeAnalyzer.max_nesting new = Raise e
           ∨ CodeAnalyzer.indentation_size new = Raise e) →
     ∃ e', critic code rules = Raise e').
Proof.
  intros Hparse new.
  destruct (rules !! "code") as [v|] eqn:Hbound.
  { rewrite (critic_clash code rules) by (by rewrite Hbound).
    split; [|by eexists]. intros e [= <-]. left. by split. }
  rewrite (critic_parsed _ _ _ Hbound Hparse). fold new. split.
  - intros e He. right.
    apply analyze_raise_findings in He as (m & Hm & Hr).
    unfold findings in Hr. rewrite call_check in Hr by done.
    change (with_issues new ∅) with new in Hr.
    repeat case_decide.
    + by rewrite line_length_per_line in Hr.
    + by rewrite forbid_semicolons_per_line in Hr.
    + left. destruct (CodeAnalyzer.max_nesting new);
        cbn [mbind Res_bind] in Hr; congruence.
    + right. destruct (CodeAnalyzer.indentation_size new);
        cbn [mbind Res_bind] in Hr; congruence.
    + done.
  - intros [e He]. destruct (CodeAnalyzer.analyze new) as [s|e'] eqn:Hs;
      [|by eexists].
    apply analyze_ok_findings in Hs as (d & Hd & _); [|done].
    apply all_findings_checks in Hd as (rl & rs & rn & ri & _ & _ & Hn & Hi & _).
    change (with_issues new ∅) with new in Hn, Hi.
    destruct He as [He|He]; congruence.
Qed.

Lemma critic_raises_witness :
  let new := CodeAnalyzer.mk Examples.lambda_tree Examples.lambda_src
               None ∅ in
  CodeAnalyzer.max_nesting new = Raise TypeError
  ∨ CodeAnalyzer.indentation_size new = Raise TypeError.
Proof.
  intros new.
  destruct (@critic_raises Examples.runtime Examples.lambda_src ∅
              Examples.lambda_tree eq_refl) as [Horigin _].
  destruct (Horigin TypeError eq_refl) as [[[v Hv] _]|Hcheck];
    [done | exact Hcheck].
Defined.

(** X6.  When the loop of [analyze] has run on an analyzer, running
    [analyze] again on the analyzer it left returns the same issues: the
    second run adds nothing. *)
Theorem analyze_again `{Runtime} (self self' : CodeAnalyzer.t) :
  for_each (λ s m, CodeAnalyzer.call m s) self
    (CodeAnalyzer.methods_called self) = Ok self' →
  CodeAnalyzer.analyze self = Ok (CodeAnalyzer.issues self')
  ∧ CodeAnalyzer.analyze self' = Ok (CodeAnalyzer.issues self').
Proof.
  intros Hrun. split.
  - unfold CodeAnalyzer.analyze. by rewrite Hrun.
  - rewrite (for_each_call_findings _ (methods_called_Forall self)) in Hrun.
    destruct (all_findings self (CodeAnalyzer.methods_called self))
      as [d|e] eqn:Hd; [|done].
    injection Hrun as <-. unfold CodeAnalyzer.analyze.
    change (CodeAnalyzer.methods_called (with_issues self _))
      with (CodeAnalyzer.methods_called self).
    rewrite (for_each_call_findings _ (methods_called_Forall self)).
    rewrite all_findings_with_issues, Hd. cbn [mbind Res_bind]. simpl.
    by rewrite sink_union_assoc, sink_union_idemp.
Qed.

Lemma analyze_again_witness :
  let self' := CodeAnalyzer.mk Examples.semicolon_tree
                 Examples.semicolon_src None
                 (add_issue 1 (Some "multiple expressions on the same line")
                    ∅) in
  @CodeAnalyzer.analyze Examples.runtime self'
  = Ok (CodeAnalyzer.issues self').
Proof.
  intros self'.
  apply (@analyze_again Examples.runtime
           (CodeAnalyzer.mk Examples.semicolon_tree Examples.semicolon_src
              None ∅) self').
  reflexivity.
Defined.

(** ** The messages that the checks record *)

Lemma has_message_union (a b : sink) (k : Z) (m : option string) :
  has_message (sink_union a b) k m
  ↔ has_message a k m ∨ has_message b k m.
Proof.
  unfold has_message. rewrite sink_union_lookup.
  destruct (a !! k) as [x|], (b !! k) as [y|]; split.
  - intros (msgs & [= <-] & [Hm|Hm]%elem_of_union); eauto.
  - intros [(msgs & [= <-] & Hm)|(msgs & [= <-] & Hm)];
      eexists; (split; [done|]); apply elem_of_union; auto.
  - intros (msgs & [= <-] & Hm). eauto.
  - intros [H|(? & ? & _)]; [done | done].
  - intros (msgs & [= <-] & Hm). eauto.
  - intros [(? & ? & _)|H]; [done | done].
  - intros (? & ? & _). done.
  - intros [(? & ? & _)|(? & ? & _)]; done.
Qed.

Lemma all_messages_has (Q : option string → Prop) (s : sink) (k : Z)
    (m : option string) :
  all_messages Q s → has_message s k m → Q m.
Proof. intros Hall (msgs & Hk & Hm). by apply (Hall k msgs Hk). Qed.

Lemma all_messages_empty (Q : option string → Prop) : all_messages Q ∅.
Proof. intros k msgs Hk. by rewrite lookup_empty in Hk. Qed.

Lemma all_messages_add (Q : option string → Prop) (k : Z)
    (m : option string) (s : sink) :
  Q m → all_messages Q s → all_messages Q (add_issue k m s).
Proof.
  intros Hm Hall k' msgs. destruct (decide (k = k')) as [<-|Hne].
  - rewrite lookup_add_issue_eq. intros [= <-]. split.
    + intros Hempty. apply (not_elem_of_empty (C:=gset (option string)) m).
      rewrite <- Hempty. apply elem_of_union_l. by apply elem_of_singleton.
    + intros m' [->%elem_of_singleton|Hm']%elem_of_union; [done|].
      destruct (s !! k) as [x|] eqn:Hk; simpl in Hm'.
      * by apply (Hall k x Hk).
      * by apply not_elem_of_empty in Hm'.
  - rewrite lookup_add_issue_ne by done. apply Hall.
Qed.

Lemma all_messages_union (Q : option string → Prop) (a b : sink) :
  all_messages Q a → all_messages Q b → all_messages Q (sink_union a b).
Proof.
  intros Ha Hb k msgs. rewrite sink_union_lookup.
  destruct (a !! k) as [x|] eqn:Hx, (b !! k) as [y|] eqn:Hy;
    intros [= <-].
  - destruct (Ha k x Hx) as [Hne Hqx]. destruct (Hb k y Hy) as [_ Hqy].
    split.
    + intros Hempty. apply Hne. apply set_eq. intros m.
      split; [|by intros ?%not_elem_of_empty].
      intros Hm. rewrite <- Hempty. by apply elem_of_union_l.
    + intros m [?|?]%elem_of_union; auto.
  - by apply (Ha k).
  - by apply (Hb k).
Qed.

Lemma all_messages_per_line (Q : option string → Prop)
    (g : pystr → option (option string)) (numbered : list (Z * pystr)) :
  (∀ line m, g line = Some m → Q m) →
  ∀ s, all_messages Q s → all_messages Q (per_line g s numbered).
Proof.
  intros Hg. induction numbered as [|p l IH]; intros s Hs; [done|].
  unfold per_line in *. simpl. apply IH.
  destruct (g p.2) as [m|] eqn:Hm; [|done].
  apply all_messages_add; [by apply (Hg p.2) | done].
Qed.

Lemma too_long_message (line : pystr) (m : option string) :
  too_long line = Some m →
  CodeAnalyzer.RULES.line_length < len line
  ∧ m = Some ("line too long (" +:+ pretty (len line) +:+ " > "
                +:+ pretty CodeAnalyzer.RULES.line_length +:+ ")").
Proof.
  unfold too_long. destruct (len line >? _) eqn:Hgt; [|done].
  apply Z.gtb_gt in Hgt. intros [= <-]. split; [lia|].
  apply line_too_long_message. lia.
Qed.

Lemma has_semicolon_message (line : pystr) (m : option string) :
  has_semicolon line = Some m →
  59%N ∈ line ∧ m = Some "multiple expressions on the same line".
Proof.
  unfold has_semicolon. destruct (re_search_semicolon line) eqn:Hre; [|done].
  intros [= <-]. split; [by apply re_search_semicolon_spec | done].
Qed.

(** What the nesting check returns, when it returns. *)
Lemma max_nesting_returns (self r : CodeAnalyzer.t) :
  CodeAnalyzer.max_nesting self = Ok r →
  r = self
  ∨ ∃ (k n : Z), r = CodeAnalyzer.add self k
                       (Some ("nesting too deep (" +:+ pretty n
                                +:+ " > 3)")).
Proof.
  unfold CodeAnalyzer.max_nesting.
  destruct (body (CodeAnalyzer.parsed_code self)) as [top|]; [|done].
  cbn [mbind Res_bind]. destruct (subscript0 top) as [first|]; [|done].
  cbn [mbind Res_bind].
  destruct (len (List.filter has_body (walk first)) >? 3) eqn:Hgt.
  - destruct (py_index _ _) as [final|]; [|done]. cbn [mbind Res_bind].
    destruct (lineno final) as [l|]; [|done]. cbn [mbind Res_bind].
    intros [= <-]. right. eexists _, _.
    apply Z.gtb_gt in Hgt. by rewrite nesting_too_deep_message by lia.
  - intros [= <-]. by left.
Qed.

(** The loop of the indentation check records indentation messages only. *)
Lemma indentation_loop_messages (Q : option string → Prop) (indent : Z)
    (nodes : list node) :
  (∀ d : Z, Q (Some ("indentation is " +:+ pretty d +:+ " instead of "
                       +:+ pretty indent))) →
  ∀ (last_offset : Z) (self : CodeAnalyzer.t) (st : Z * CodeAnalyzer.t),
    for_each (CodeAnalyzer.indentation_size_body indent)
      (last_offset, self) nodes = Ok st →
    all_messages Q (CodeAnalyzer.issues self) →
    all_messages Q (CodeAnalyzer.issues st.2).
Proof.
  intros HQ. induction nodes as [|n nodes IH];
    intros last_offset self st Hrun Hall.
  - by injection Hrun as <-.
  - rewrite for_each_cons in Hrun.
    destruct (indentation_body_cases indent last_offset n)
      as [[e He]|[[c Hc]|(c & l & d & _ & Hadd)]].
    + by rewrite He in Hrun.
    + rewrite Hc in Hrun. by apply (IH _ _ _ Hrun).
    + rewrite Hadd in Hrun. apply (IH _ _ _ Hrun). simpl.
      by apply all_messages_add.
Qed.

Lemma per_line_has_message (g : pystr → option (option string))
    (lines : list pystr) (k : Z) (m : option string) :
  has_message (per_line g ∅ (enumerate lines)) k m
  ↔ ∃ (i : nat) (line : pystr),
      k = Z.of_nat i + 1 ∧ lines !! i = Some line ∧ g line = Some m.
Proof.
  unfold has_message, enumerate. rewrite per_line_lookup, lookup_empty.
  split.
  - intros (msgs & Hk & Hm). case_decide as Hpos.
    + destruct (lines !! Z.to_nat (k - 1 - 0)) as [line|] eqn:Hline;
        [|done].
      simpl in Hk. destruct (g line) as [m'|] eqn:Hg; [|done].
      injection Hk as <-. simpl in Hm.
      apply elem_of_union in Hm as [->%elem_of_singleton|Hm];
        [|by apply not_elem_of_empty in Hm].
      exists (Z.to_nat (k - 1 - 0)), line. repeat split; [lia|done|done].
    + done.
  - intros (i & line & -> & Hline & Hg).
    rewrite decide_True by lia.
    replace (Z.to_nat (Z.of_nat i + 1 - 1 - 0)) with i by lia.
    rewrite Hline. simpl. rewrite Hg. eexists. split; [done|].
    apply elem_of_union_l. by apply elem_of_singleton.
Qed.

Lemma indentation_size_messages (Q : option string → Prop)
    (self r : CodeAnalyzer.t) :
  (∀ m, is_indentation m → Q m) →
  CodeAnalyzer.indentation_size self = Ok r →
  all_messages Q (CodeAnalyzer.issues self) →
  all_messages Q (CodeAnalyzer.issues r).
Proof.
  intros HQ. unfold CodeAnalyzer.indentation_size.
  destruct (for_each _ _ _) as [st|] eqn:Hrun; [|done].
  intros [= <-]. refine (indentation_loop_messages Q _ _ _ _ _ _ Hrun).
  intros d. apply HQ. by exists d.
Qed.

(** The issues of [critic], when it returns: the per-line issues of the
    two checks on lines, and the issues of the two checks on the tree. *)
Lemma critic_split `{Runtime} (code : pystr) (rules : gmap string pyval)
    (s : sink) :
  critic code rules = Ok s →
  ∃ tree rn ri,
    ast_parse code = Ok tree
    ∧ CodeAnalyzer.max_nesting (CodeAnalyzer.mk tree code None ∅) = Ok rn
    ∧ CodeAnalyzer.indentation_size (CodeAnalyzer.mk tree code None ∅)
      = Ok ri
    ∧ s = sink_union (per_line too_long ∅ (enumerate (splitlines code)))
            (sink_union
               (per_line has_semicolon ∅ (enumerate (splitlines code)))
               (sink_union (CodeAnalyzer.issues rn)
                  (CodeAnalyzer.issues ri))).
Proof.
  intros Hs. pose proof (critic_ok_bound _ _ _ Hs) as Hbound. revert Hs.
  destruct (ast_parse code) as [tree|e] eqn:Hparse;
    [|by rewrite (critic_unparsed _ _ _ Hbound Hparse)].
  rewrite (critic_parsed _ _ _ Hbound Hparse). intros Hs.
  apply analyze_ok_findings in Hs as (d & Hd & ->); [|done].
  apply all_findings_checks in Hd
    as (rl & rs & rn & ri & Hl & Hsemi & Hn & Hi & ->).
  rewrite line_length_per_line in Hl. injection Hl as <-.
  rewrite forbid_semicolons_per_line in Hsemi. injection Hsemi as <-.
  exists tree, rn, ri. repeat split; [done|done|].
  by rewrite sink_union_empty_r.
Qed.

Lemma nesting_issues_messages (Q : option string → Prop)
    (self r : CodeAnalyzer.t) :
  (∀ m, is_nesting_too_deep m → Q m) →
  CodeAnalyzer.max_nesting self = Ok r →
  all_messages Q (CodeAnalyzer.issues self) →
  all_messages Q (CodeAnalyzer.issues r).
Proof.
  intros HQ Hr Hall.
  destruct (max_nesting_returns _ _ Hr) as [->|(k & n & ->)]; [done|].
  simpl. apply all_messages_add; [|done]. apply HQ. by exists n.
Qed.

(** X7.  When [critic] returns issues, the message
    "line too long (L > 79)" with the length [L] of a line is recorded
    under the number of that line exactly when [L] is more than 79: every
    long line is reported, whatever the other checks do, and no other
    check records such a message. *)
Theorem critic_line_too_long_reported `{Runtime} (code : pystr)
    (rules : gmap string pyval) (s : sink) (i : nat) (line : pystr) :
  critic code rules = Ok s →
  splitlines code !! i = Some line →
  CodeAnalyzer.RULES.line_length < len line
  ↔ has_message s (Z.of_nat i + 1)
      (Some ("line too long (" +:+ pretty (len line) +:+ " > "
               +:+ pretty CodeAnalyzer.RULES.line_length +:+ ")")).
Proof.
  intros Hs Hline.
  apply critic_split in Hs as (tree & rn & ri & _ & Hn & Hi & ->).
  rewrite !has_message_union, !per_line_has_message. split.
  - intros Hlong. left. exists i, line. repeat split; [done|].
    unfold too_long. rewrite (proj2 (Z.gtb_gt _ _)) by lia.
    by rewrite line_too_long_message by lia.
  - intros [(i' & line' & Hi' & Hline' & Hg)
           |[(i' & line' & Hi' & Hline' & Hg)|[Hmsg|Hmsg]]].
    + assert (i' = i) as -> by lia. rewrite Hline in Hline'.
      injection Hline' as <-. by apply too_long_message in Hg as [? _].
    + by apply has_semicolon_message in Hg as [_ ?].
    + apply (all_messages_has is_nesting_too_deep) in Hmsg as [n Hmsg];
        [done|].
      by apply (nesting_issues_messages _ _ _ (λ m Hm, Hm) Hn),
               all_messages_empty.
    + apply (all_messages_has is_indentation) in Hmsg as [d Hmsg];
        [done|].
      by apply (indentation_size_messages _ _ _ (λ m Hm, Hm) Hi),
               all_messages_empty.
Qed.

Lemma critic_line_too_long_reported_witness :
  has_message (add_issue 1 (Some "line too long (85 > 79)") ∅) 1
    (Some "line too long (85 > 79)").
Proof.
  assert (Hs : @critic long_runtime long_src ∅
               = Ok (add_issue 1 (Some "line too long (85 > 79)") ∅))
    by reflexivity.
  assert (Hline : splitlines long_src !! 0%nat = Some long_src)
    by reflexivity.
  pose proof (@critic_line_too_long_reported long_runtime long_src ∅ _
                0%nat long_src Hs Hline) as [Hlong _].
  assert (H79 : CodeAnalyzer.RULES.line_length < len long_src)
    by (vm_compute; reflexivity).
  exact (Hlong H79).
Defined.

(** X8.  When [critic] returns issues, the message "multiple expressions
    on the same line" is recorded under the number of a line exactly when
    that line holds a semicolon. *)
Theorem critic_semicolon_reported `{Runtime} (code : pystr)
    (rules : gmap string pyval) (s : sink) (i : nat) (line : pystr) :
  critic code rules = Ok s →
  splitlines code !! i = Some line →
  59%N ∈ line
  ↔ has_message s (Z.of_nat i + 1)
      (Some "multiple expressions on the same line").
Proof.
  intros Hs Hline.
  apply critic_split in Hs as (tree & rn & ri & _ & Hn & Hi & ->).
  rewrite !has_message_union, !per_line_has_message. split.
  - intros Hsemi. right; left. exists i, line. repeat split; [done|].
    unfold has_semicolon.
    by rewrite (proj2 (re_search_semicolon_spec line) Hsemi).
  - intros [(i' & line' & Hi' & Hline' & Hg)
           |[(i' & line' & Hi' & Hline' & Hg)|[Hmsg|Hmsg]]].
    + by apply too_long_message in Hg as [_ ?].
    + assert (i' = i) as -> by lia. rewrite Hline in Hline'.
      injection Hline' as <-. by apply has_semicolon_message in Hg as [? _].
    + apply (all_messages_has is_nesting_too_deep) in Hmsg as [n Hmsg];
        [done|].
      by apply (nesting_issues_messages _ _ _ (λ m Hm, Hm) Hn),
               all_messages_empty.
    + apply (all_messages_has is_indentation) in Hmsg as [d Hmsg];
        [done|].
      by apply (indentation_size_messages _ _ _ (λ m Hm, Hm) Hi),
               all_messages_empty.
Qed.

Lemma critic_semicolon_reported_witness :
  has_message
    (add_issue 1 (Some "multiple expressions on the same line") ∅) 1
    (Some "multiple expressions on the same line").
Proof.
  assert (Hs : @critic Examples.runtime Examples.semicolon_src ∅
               = Ok (add_issue 1
                       (Some "multiple expressions on the same line") ∅))
    by reflexivity.
  assert (Hline : splitlines Examples.semicolon_src !! 0%nat
                  = Some Examples.semicolon_src)
    by reflexivity.
  pose proof (@critic_semicolon_reported Examples.runtime
                Examples.semicolon_src ∅ _ 0%nat Examples.semicolon_src
                Hs Hline) as [Hsemi _].
  assert (H59 : 59%N ∈ Examples.semicolon_src)
    by (apply (bool_decide_unpack _); vm_compute; reflexivity).
  exact (Hsemi H59).
Defined.

(** X9.  In the issues that [critic] returns, no line has an empty set of
    messages, every message is one of the four messages of [CodeErrors]
    that have a text, and [None] is never recorded. *)
Theorem critic_messages `{Runtime} (code : pystr)
    (rules : gmap string pyval) (s : sink) :
  critic code rules = Ok s →
  all_messages is_message s ∧ ∀ k, ¬ has_message s k None.
Proof.
  intros Hs.
  assert (Hall : all_messages is_message s).
  { apply critic_split in Hs as (tree & rn & ri & _ & Hn & Hi & ->).
    repeat apply all_messages_union.
    - apply all_messages_per_line; [|apply all_messages_empty].
      intros line m [_ ->]%too_long_message. left. by eexists.
    - apply all_messages_per_line; [|apply all_messages_empty].
      intros line m [_ ->]%has_semicolon_message. by right; left.
    - apply (nesting_issues_messages is_message) with (2 := Hn);
        [|apply all_messages_empty].
      intros m Hm. by right; right; left.
    - apply (indentation_size_messages is_message) with (2 := Hi);
        [|apply all_messages_empty].
      intros m Hm. by right; right; right. }
  split; [done|]. intros k Hnone.
  apply (all_messages_has _ _ _ _ Hall)
    in Hnone as [[? ?]|[?|[[? ?]|[? ?]]]]; done.
Qed.

Lemma critic_messages_witness :
  ¬ has_message (add_issue 5 (Some "nesting too deep (4 > 3)") ∅) 5 None.
Proof.
  destruct (@critic_messages Examples.runtime Examples.nested_src ∅
              (add_issue 5 (Some "nesting too deep (4 > 3)") ∅))
    as [_ Hnone].
  - reflexivity.
  - apply Hnone.
Defined.



(** ** When the checks on the tree return *)

Lemma subscript0_ok (v : field_value node) (first : node) :
  subscript0 v = Ok first ↔ ∃ rest, v = F_list (first :: rest).
Proof.
  split.
  - destruct v as [n|[|x ns]|]; try done.
    intros [= <-]. by exists ns.
  - by intros [rest ->].
Qed.

Lemma indentation_body_ok (indent last_offset : Z)
    (self : CodeAnalyzer.t) (n : node) (st : Z * CodeAnalyzer.t) :
  has_body n = true →
  CodeAnalyzer.indentation_size_body indent (last_offset, self) n = Ok st →
  ∃ lc, first_statement n lc.
Proof.
  intros Hb. unfold CodeAnalyzer.indentation_size_body. rewrite Hb.
  destruct (body n) as [b|] eqn:Hbody; [|done]. cbn [mbind Res_bind].
  destruct (subscript0 b) as [first|] eqn:Hfirst; [|done].
  cbn [mbind Res_bind].
  destruct (lineno first) as [l|] eqn:Hl; [|done]. cbn [mbind Res_bind].
  destruct (col_offset first) as [c|] eqn:Hc; [|done]. intros _.
  apply subscript0_ok in Hfirst as [rest ->].
  exists (l, c), first, rest. done.
Qed.

Lemma indentation_loop_ok (indent : Z) (nodes : list node) :
  ∀ (last_offset : Z) (self : CodeAnalyzer.t) (st : Z * CodeAnalyzer.t),
    for_each (CodeAnalyzer.indentation_size_body indent)
      (last_offset, self) nodes = Ok st →
    ∃ firsts, Forall2 first_statement (List.filter has_body nodes) firsts.
Proof.
  induction nodes as [|n nodes IH]; intros last_offset self st Hrun.
  - exists []. constructor.
  - rewrite for_each_cons in Hrun.
    destruct (CodeAnalyzer.indentation_size_body indent
                (last_offset, self) n) as [[c self']|] eqn:Hstep; [|done].
    cbn [mbind Res_bind] in Hrun.
    destruct (IH _ _ _ Hrun) as [firsts Hfirsts]. simpl.
    destruct (has_body n) eqn:Hb; [|by exists firsts].
    destruct (indentation_body_ok _ _ _ _ _ Hb Hstep) as [lc Hlc].
    exists (lc :: firsts). by constructor.
Qed.

(** X11.  The nesting check returns exactly when the tree has a first
    top-level statement and either at most 3 nodes with a body are counted
    from it, or the last of them in the walk has a line number. *)
Theorem max_nesting_returns_iff (self : CodeAnalyzer.t) :
  (∃ r, CodeAnalyzer.max_nesting self = Ok r)
  ↔ ∃ first rest,
      body (CodeAnalyzer.parsed_code self) = Ok (F_list (first :: rest))
      ∧ let nodes := List.filter has_body (walk first) in
        len nodes ≤ 3
        ∨ ∃ final l, last nodes = Some final ∧ lineno final = Ok l.
Proof.
  split.
  - intros [r Hr]. unfold CodeAnalyzer.max_nesting in Hr.
    destruct (body (CodeAnalyzer.parsed_code self)) as [top|] eqn:Hbody;
      [|done].
    cbn [mbind Res_bind] in Hr.
    destruct (subscript0 top) as [first|] eqn:Hfirst; [|done].
    cbn [mbind Res_bind] in Hr.
    apply subscript0_ok in Hfirst as [rest ->].
    exists first, rest. split; [done|]. intros nodes. fold nodes in Hr.
    destruct (len nodes >? 3) eqn:Hgt.
    + right. destruct (last nodes) as [final|] eqn:Hlast.
      * rewrite (py_index_last _ _ Hlast) in Hr. cbn [mbind Res_bind] in Hr.
        destruct (lineno final) as [l|] eqn:Hl; [|done]. by exists final, l.
      * apply last_None in Hlast. rewrite Hlast in Hgt. done.
    + left. rewrite Z.gtb_ltb in Hgt. apply Z.ltb_ge in Hgt. done.
  - intros (first & rest & Hbody & Hnodes).
    rewrite (max_nesting_first _ _ _ Hbody). cbv zeta in *.
    destruct (len (List.filter has_body (walk first)) >? 3) eqn:Hgt.
    + destruct Hnodes as [Hle|(final & l & Hlast & Hl)].
      * apply Z.gtb_gt in Hgt. lia.
      * rewrite (py_index_last _ _ Hlast). cbn [mbind Res_bind].
        rewrite Hl. by eexists.
    + by eexists.
Qed.

(** X12.  The indentation check returns exactly when every node with a
    body that the walk over the tree yields has a list of statements as
    its body, with a first statement that has a line and a column. *)
Theorem indentation_size_returns_iff (self : CodeAnalyzer.t) :
  (∃ r, CodeAnalyzer.indentation_size self = Ok r)
  ↔ ∃ firsts,
      Forall2 first_statement
        (List.filter has_body (walk (CodeAnalyzer.parsed_code self)))
        firsts.
Proof.
  unfold CodeAnalyzer.indentation_size. split.
  - intros [r Hr].
    destruct (for_each _ _ _) as [st|] eqn:Hrun; [|done].
    by apply indentation_loop_ok in Hrun.
  - intros [firsts Hfirsts].
    rewrite (indentation_loop _ _ firsts 0 self Hfirsts). by eexists.
Qed.

(** ** Every increase of the indentation *)

Lemma has_message_add_same (k : Z) (m : option string) (s : sink) :
  has_message (add_issue k m s) k m.
Proof.
  eexists. split; [apply lookup_add_issue_eq|].
  apply elem_of_union_l. by apply elem_of_singleton.
Qed.

Lemma has_message_add_mono (k k' : Z) (m m' : option string) (s : sink) :
  has_message s k' m' → has_message (add_issue k m s) k' m'.
Proof.
  rewrite (add_issue_as_union k m s), has_message_union. by right.
Qed.

Lemma indentation_issues_S (indent : Z) (firsts : list (Z * Z)) (j : nat)
    (s : sink) :
  indentation_issues indent firsts (S j) s
  = match firsts !! j with
    | Some lc =>
        indentation_issue indent (prev_offset firsts j) lc
          (indentation_issues indent firsts j s)
    | None => indentation_issues indent firsts j s
    end.
Proof. unfold indentation_issues. by rewrite seq_S, foldl_app. Qed.

Lemma indentation_issues_mono (indent : Z) (firsts : list (Z * Z))
    (s : sink) (k : Z) (m : option string) (j j' : nat) :
  (j ≤ j')%nat →
  has_message (indentation_issues indent firsts j s) k m →
  has_message (indentation_issues indent firsts j' s) k m.
Proof.
  induction 1 as [|j' Hle IH]; [done|]. intros Hj.
  rewrite indentation_issues_S. destruct (firsts !! j') as [lc|]; [|auto].
  unfold indentation_issue. destruct (_ >? indent); [|auto].
  by apply has_message_add_mono, IH.
Qed.

Lemma indentation_issues_quiet (indent : Z) (firsts : list (Z * Z))
    (s : sink) :
  (∀ i l c, firsts !! i = Some (l, c) → c - prev_offset firsts i ≤ indent) →
  ∀ j, indentation_issues indent firsts j s = s.
Proof.
  intros Hquiet. induction j as [|j IH]; [done|].
  rewrite indentation_issues_S, IH.
  destruct (firsts !! j) as [[l c]|] eqn:Hj; [|done].
  unfold indentation_issue. simpl. rewrite Z.gtb_ltb.
  rewrite (proj2 (Z.ltb_ge _ _)); [done|]. by apply (Hquiet j l).
Qed.

Lemma indentation_size_issues (self : CodeAnalyzer.t)
    (firsts : list (Z * Z)) :
  Forall2 first_statement
    (List.filter has_body (walk (CodeAnalyzer.parsed_code self))) firsts →
  CodeAnalyzer.indentation_size self
  = Ok (with_issues self
          (indentation_issues CodeAnalyzer.RULES.indentation_size firsts
             (length firsts) (CodeAnalyzer.issues self))).
Proof.
  intros Hfirsts. unfold CodeAnalyzer.indentation_size.
  rewrite (indentation_loop _ _ firsts 0 self Hfirsts).
  cbn [mbind Res_bind snd]. unfold indentation_issues.
  by rewrite (indentation_run_issues _ firsts []).
Qed.

(** X13.  Let the nodes with a body, in the order of the walk over the
    tree, have the first statements of their bodies at the lines and
    columns [firsts].  The indentation check then returns; for every body
    whose column is more than [indentation_size] beyond the column of the
    body before it in the walk (0 for the first), by [D], the message
    "indentation is D instead of 4" is among the issues of its line; and
    when no body is so, however far back its column goes, the check
    changes nothing. *)
Theorem indentation_increase (self : CodeAnalyzer.t)
    (firsts : list (Z * Z)) :
  Forall2 first_statement
    (List.filter has_body (walk (CodeAnalyzer.parsed_code self))) firsts →
  let indent := CodeAnalyzer.RULES.indentation_size in
  ∃ r,
    CodeAnalyzer.indentation_size self = Ok r
    ∧ (∀ (i : nat) (l c : Z),
         firsts !! i = Some (l, c) →
         indent < c - prev_offset firsts i →
         has_message (CodeAnalyzer.issues r) l
           (Some ("indentation is " +:+ pretty (c - prev_offset firsts i)
                    +:+ " instead of " +:+ pretty indent)))
    ∧ ((∀ (i : nat) (l c : Z),
          firsts !! i = Some (l, c) → c - prev_offset firsts i ≤ indent) →
       r = self).
Proof.
  intros Hfirsts indent. eexists.
  split; [by apply indentation_size_issues|]. split.
  - intros i l c Hi Hgt. simpl.
    apply (indentation_issues_mono _ _ _ _ _ (S i)).
    + apply lookup_lt_Some in Hi. lia.
    + rewrite indentation_issues_S, Hi. unfold indentation_issue. simpl.
      fold indent. rewrite (proj2 (Z.gtb_gt _ _)) by lia.
      apply has_message_add_same.
  - intros Hquiet. rewrite indentation_issues_quiet by done.
    apply with_issues_id.
Qed.

Lemma indentation_increase_witness :
  has_message (add_issue 2 (Some "indentation is 5 instead of 4") ∅) 2
    (Some "indentation is 5 instead of 4").
Proof.
  pose (self := CodeAnalyzer.mk Examples.indent5_tree Examples.indent5_src
                  None ∅).
  assert (Hfirsts : Forall2 first_statement
            (List.filter has_body (walk (CodeAnalyzer.parsed_code self)))
            [(1, 0); (2, 5)]).
  { repeat constructor; eexists _, _; repeat split; reflexivity. }
  destruct (indentation_increase self _ Hfirsts) as (r & Hr & Hmsg & _).
  assert (Hfour : CodeAnalyzer.RULES.indentation_size
                  < 5 - prev_offset [(1, 0); (2, 5)] 1) by done.
  pose proof (Hmsg 1%nat 2 5 eq_refl Hfour) as Hfive.
  assert (Hself : CodeAnalyzer.indentation_size self
                  = Ok (with_issues self
                          (add_issue 2
                             (Some "indentation is 5 instead of 4") ∅)))
    by reflexivity.
  rewrite Hself in Hr. injection Hr as <-. exact Hfive.
Defined.

(** ** The checks on lines away from the lines *)

Lemma per_line_outside (g : pystr → option (option string))
    (lines : list pystr) (s : sink) (k : Z) :
  k < 1 ∨ len lines < k →
  per_line g s (enumerate lines) !! k = s !! k.
Proof.
  intros Hk. unfold enumerate. rewrite per_line_lookup.
  case_decide; [|done].
  rewrite (lookup_ge_None_2 lines); [done|]. unfold len in Hk. lia.
Qed.

(** X14.  The line-length check and the semicolon check never raise, keep
    the rest of the analyzer, and leave alone the issues of every key that
    is not the number of a line of the source, from 1 to the number of
    lines. *)
Theorem line_checks_other_keys (self : CodeAnalyzer.t) (k : Z) :
  k < 1 ∨ len (splitlines (CodeAnalyzer.code self)) < k →
  ∃ sl ss,
    CodeAnalyzer.line_length self = Ok (with_issues self sl)
    ∧ CodeAnalyzer.forbid_semicolons self = Ok (with_issues self ss)
    ∧ sl !! k = CodeAnalyzer.issues self !! k
    ∧ ss !! k = CodeAnalyzer.issues self !! k.
Proof.
  intros Hk. eexists _, _.
  split; [apply line_length_per_line|].
  split; [apply forbid_semicolons_per_line|].
  split; by apply per_line_outside.
Qed.

Lemma line_checks_other_keys_witness :
  let self := CodeAnalyzer.mk Examples.semicolon_tree Examples.semicolon_src
                None {[ 2 := {[ Some "earlier" ]} ]} in
  ∃ sl ss,
    CodeAnalyzer.line_length self = Ok (with_issues self sl)
    ∧ CodeAnalyzer.forbid_semicolons self = Ok (with_issues self ss)
    ∧ sl !! 2 = CodeAnalyzer.issues self !! 2
    ∧ ss !! 2 = CodeAnalyzer.issues self !! 2.
Proof.
  intros self. apply (line_checks_other_keys self 2). right. done.
Defined.

(** X15.  The nesting check looks at the first top-level statement only:
    two analyzers whose trees begin with the same statement, whatever
    statements follow it, get the same outcome from the check, the same
    exception or the same issues when they start from the same issues. *)
Theorem max_nesting_first_statement_only (self self' : CodeAnalyzer.t)
    (first : node) (rest rest' : list node) :
  body (CodeAnalyzer.parsed_code self) = Ok (F_list (first :: rest)) →
  body (CodeAnalyzer.parsed_code self') = Ok (F_list (first :: rest')) →
  CodeAnalyzer.issues self = CodeAnalyzer.issues self' →
  (r ← CodeAnalyzer.max_nesting self; Ok (CodeAnalyzer.issues r))
  = (r ← CodeAnalyzer.max_nesting self'; Ok (CodeAnalyzer.issues r)).
Proof.
  intros Hbody Hbody' Hissues.
  rewrite (max_nesting_first _ _ _ Hbody), (max_nesting_first _ _ _ Hbody').
  cbv zeta. destruct (len (List.filter has_body (walk first)) >? 3);
    [|cbn [mbind Res_bind]; by rewrite Hissues].
  destruct (py_index _ _) as [final|]; [|done]. cbn [mbind Res_bind].
  destruct (lineno final) as [l|]; [|done]. cbn [mbind Res_bind]. simpl.
  by rewrite Hissues.
Qed.

Lemma max_nesting_first_statement_only_witness :
  (r ← CodeAnalyzer.max_nesting
         (CodeAnalyzer.mk Examples.nested_tree Examples.nested_src None ∅);
   Ok (CodeAnalyzer.issues r))
  = (r ← CodeAnalyzer.max_nesting
           (CodeAnalyzer.mk
              (Ast.Module_ [Examples.nested_def; Examples.nested_def])
              Examples.nested_src None ∅);
     Ok (CodeAnalyzer.issues r)).
Proof.
  apply (max_nesting_first_statement_only _ _ Examples.nested_def []
           [Examples.nested_def]); reflexivity.
Defined.

(** * The claims on the nesting check, the indentation check and the parser *)

(** C5.  When the source has a first top-level statement, the nesting check
    counts the nodes with a body in the walk from that statement, which are
    all the nodes with a body in the tree of that statement.  If the count
    is at most 3, the threshold of the check, the check adds nothing.  If
    the count is more than 3, there is a last such node in the walk: when
    it has a line [l], the check returns with the message
    "nesting too deep (count > 3)" added to the messages under the line
    [l + 1] and every other line as it was; when it has no line, as a
    [match_case] has none, the check raises [AttributeError] and records
    nothing. *)
Theorem max_nesting_spec (self : CodeAnalyzer.t) (first : node)
    (rest : list node) :
  body (CodeAnalyzer.parsed_code self) = Ok (F_list (first :: rest)) →
  let nodes := List.filter has_body (walk first) in
  let count := len nodes in
  count = len (List.filter has_body (subtree first))
  ∧ (count ≤ 3 → CodeAnalyzer.max_nesting self = Ok self)
  ∧ (3 < count →
     ∃ final,
       last nodes = Some final
       ∧ (∀ l, lineno final = Ok l →
            ∃ r, CodeAnalyzer.max_nesting self = Ok r
                 ∧ CodeAnalyzer.issues r !! (l + 1)
                   = Some ({[ Some ("nesting too deep (" +:+ pretty count
                                      +:+ " > 3)") ]}
                             ∪ default ∅
                                 (CodeAnalyzer.issues self !! (l + 1)))
                 ∧ ∀ k, k ≠ l + 1 →
                        CodeAnalyzer.issues r !! k
                        = CodeAnalyzer.issues self !! k)
       ∧ (lineno final = Raise AttributeError →
          CodeAnalyzer.max_nesting self = Raise AttributeError)).
Proof.
  intros Hbody nodes count. split; [|split].
  - unfold count, nodes, len. f_equal. apply walk_count_has_body.
  - intros Hle. rewrite (max_nesting_first _ _ _ Hbody). simpl.
    fold nodes. fold count. rewrite Z.gtb_ltb.
    by rewrite (proj2 (Z.ltb_ge _ _)) by lia.
  - intros Hgt. destruct (last nodes) as [final|] eqn:Hlast.
    + exists final. split; [done|].
      assert (Hrun : CodeAnalyzer.max_nesting self
                     = (l ← lineno final;
                        Ok (CodeAnalyzer.add self (l + 1)
                              (Some ("nesting too deep (" +:+ pretty count
                                       +:+ " > 3)"))))).
      { rewrite (max_nesting_first _ _ _ Hbody). simpl.
        fold nodes. fold count. rewrite (proj2 (Z.gtb_gt _ _)) by lia.
        unfold count. rewrite (py_index_last _ _ Hlast). simpl.
        by rewrite nesting_too_deep_message by done. }
      split.
      * intros l Hl. rewrite Hrun, Hl. eexists. split; [done|]. simpl.
        split; [apply lookup_add_issue_eq|].
        intros k Hk. by apply lookup_add_issue_ne.
      * intros Hl. by rewrite Hrun, Hl.
    + apply last_None in Hlast. unfold count in Hgt. rewrite Hlast in Hgt.
      unfold len in Hgt. simpl in Hgt. lia.
Qed.

Lemma max_nesting_spec_witness :
  CodeAnalyzer.max_nesting (CodeAnalyzer.mk match_tree match_src None ∅)
  = Raise AttributeError
  ∧ @critic match_runtime match_src ∅ = Raise AttributeError.
Proof.
  split; [|reflexivity].
  destruct (max_nesting_spec
              (CodeAnalyzer.mk match_tree match_src None ∅)
              match_stmt [] eq_refl) as (_ & _ & Hdeep).
  destruct Hdeep as (final & Hlast & _ & Hraise); [by vm_compute|].
  apply Hraise. vm_compute in Hlast. injection Hlast as <-. reflexivity.
Defined.



(** ** The exceptions of the checks are not those of the parser *)

Lemma body_raise (n : node) (e : exn) :
  body n = Raise e → e = AttributeError.
Proof.
  unfold body. induction (node_fields n) as [|[f v] fs IH]; simpl.
  - by intros [= <-].
  - destruct (String.eqb f "body"); [done | apply IH].
Qed.

Lemma py_index_raise {A} (l : list A) (i : Z) (e : exn) :
  py_index l i = Raise e → e = IndexError.
Proof.
  unfold py_index. cbv zeta. destruct (_ <? 0); [by intros [= <-]|].
  destruct (l !! _); [done | by intros [= <-]].
Qed.

Lemma subscript0_raise (v : field_value node) (e : exn) :
  subscript0 v = Raise e → e = TypeError ∨ e = IndexError.
Proof.
  destruct v as [n|ns|]; simpl.
  - intros [= <-]. by left.
  - intros He. right. by apply py_index_raise in He.
  - intros [= <-]. by left.
Qed.

Lemma lineno_raise (n : node) (e : exn) :
  lineno n = Raise e → e = AttributeError.
Proof. destruct n as [k [l|] c fs]; simpl; [done | by intros [= <-]]. Qed.

Lemma col_offset_raise (n : node) (e : exn) :
  col_offset n = Raise e → e = AttributeError.
Proof. destruct n as [k l [c|] fs]; simpl; [done | by intros [= <-]]. Qed.

Lemma max_nesting_raise (self : CodeAnalyzer.t) (e : exn) :
  CodeAnalyzer.max_nesting self = Raise e →
  e = IndexError ∨ e = TypeError ∨ e = AttributeError.
Proof.
  unfold CodeAnalyzer.max_nesting.
  destruct (body (CodeAnalyzer.parsed_code self)) as [top|e'] eqn:Hbody.
  - cbn [mbind Res_bind].
    destruct (subscript0 top) as [first|e'] eqn:Hfirst.
    + cbn [mbind Res_bind]. destruct (_ >? 3); [|done].
      destruct (py_index _ _) as [final|e'] eqn:Hfinal.
      * cbn [mbind Res_bind].
        destruct (lineno final) as [l|e'] eqn:Hl; [done|].
        intros [= <-]. apply lineno_raise in Hl. auto.
      * intros [= <-]. apply py_index_raise in Hfinal. auto.
    + intros [= <-]. apply subscript0_raise in Hfirst as [?|?]; auto.
  - intros [= <-]. apply body_raise in Hbody. auto.
Qed.

Lemma indentation_body_raise (indent : Z) (st : Z * CodeAnalyzer.t)
    (n : node) (e : exn) :
  CodeAnalyzer.indentation_size_body indent st n = Raise e →
  e = IndexError ∨ e = TypeError ∨ e = AttributeError.
Proof.
  destruct st as [last_offset self].
  unfold CodeAnalyzer.indentation_size_body.
  destruct (has_body n); [|done].
  destruct (body n) as [b|e'] eqn:Hbody;
    [|intros [= <-]; apply body_raise in Hbody; auto].
  cbn [mbind Res_bind].
  destruct (subscript0 b) as [first|e'] eqn:Hfirst;
    [|intros [= <-]; apply subscript0_raise in Hfirst as [?|?]; auto].
  cbn [mbind Res_bind].
  destruct (lineno first) as [l|e'] eqn:Hl;
    [|intros [= <-]; apply lineno_raise in Hl; auto].
  cbn [mbind Res_bind].
  destruct (col_offset first) as [c|e'] eqn:Hc;
    [done | intros [= <-]; apply col_offset_raise in Hc; auto].
Qed.

Lemma indentation_size_raise (self : CodeAnalyzer.t) (e : exn) :
  CodeAnalyzer.indentation_size self = Raise e →
  e = IndexError ∨ e = TypeError ∨ e = AttributeError.
Proof.
  unfold CodeAnalyzer.indentation_size.
  generalize (0, self). generalize (walk (CodeAnalyzer.parsed_code self)).
  intros nodes. induction nodes as [|n nodes IH]; intros st; [done|].
  rewrite for_each_cons.
  destruct (CodeAnalyzer.indentation_size_body _ st n) as [st'|e'] eqn:Hstep.
  - cbn [mbind Res_bind]. apply IH.
  - intros [= <-]. by apply indentation_body_raise in Hstep.
Qed.

(** C9, as amended.  When the parser raises an exception for the source,
    [SyntaxError] or another one, no analyzer is constructed, whatever the
    rules, and a call of [critic] whose overrides bind raises that same
    exception: there is no sink, partial or not, for the caller to
    receive.  And [critic] raises [SyntaxError] or [ValueError] only when
    the parser did: no check raises either. *)
Theorem critic_syntax_error `{Runtime} (code : pystr)
    (rules : gmap string pyval) :
  rules !! "code" = None →
  (∀ e, ast_parse code = Raise e →
        critic code rules = Raise e
        ∧ ∀ r, CodeAnalyzer.__init__ code r = Raise e)
  ∧ (∀ e, e = SyntaxError ∨ e = ValueError →
          critic code rules = Raise e → ast_parse code = Raise e).
Proof.
  intros Hbound. split.
  - intros e Hparse. split; [by apply critic_unparsed|].
    intros r. unfold CodeAnalyzer.__init__. by rewrite Hparse.
  - intros e He Hraise.
    destruct (ast_parse code) as [tree|e'] eqn:Hparse.
    + rewrite (critic_parsed _ _ _ Hbound Hparse) in Hraise.
      apply analyze_raise_findings in Hraise as (m & Hm & Hr).
      unfold findings in Hr. rewrite call_check in Hr by done.
      assert (Hkind : e = IndexError ∨ e = TypeError ∨ e = AttributeError).
      { repeat case_decide.
        - by rewrite line_length_per_line in Hr.
        - by rewrite forbid_semicolons_per_line in Hr.
        - destruct (CodeAnalyzer.max_nesting _) as [r|e''] eqn:Hn; [done|].
          injection Hr as <-. by apply max_nesting_raise in Hn.
        - destruct (CodeAnalyzer.indentation_size _) as [r|e''] eqn:Hi;
            [done|].
          injection Hr as <-. by apply indentation_size_raise in Hi.
        - done. }
      destruct He as [->| ->], Hkind as [?|[?|?]]; done.
    + rewrite (critic_unparsed _ _ _ Hbound Hparse) in Hraise. congruence.
Qed.

Lemma critic_syntax_error_witness :
  @critic Examples.runtime (pystr_of "(") ∅ = Raise SyntaxError.
Proof.
  destruct (@critic_syntax_error Examples.runtime (pystr_of "(") ∅
              (lookup_empty "code")) as [Hparse _].
  apply (Hparse SyntaxError). reflexivity.
Defined.

(** C9 as stated fails: a source with a null character cannot be parsed,
    and [critic] raises the [ValueError] of the parser for it, not
    [SyntaxError]. *)
Lemma critic_null_character_raises :
  @ast_parse match_runtime [0%N] = Raise ValueError
  ∧ @critic match_runtime [0%N] ∅ = Raise ValueError
  ∧ @critic match_runtime [0%N] ∅ ≠ Raise SyntaxError.
Proof.
  assert (Hraise : @critic match_runtime [0%N] ∅ = Raise ValueError)
    by reflexivity.
  split; [reflexivity|]. split; [done|]. by rewrite Hraise.
Qed.
